(** * Confluence entity models: users and attachments

    A shallow embedding of [src/mcp_atlassian/models/confluence/common.py].
    The module turns the untyped mappings of the Confluence REST API into two
    typed records, [ConfluenceUser] and [ConfluenceAttachment], and turns the
    records back into reduced mappings.

    The Python values that reach the code are the values of a deserialised
    JSON document; they are embedded as [pyval].  A dictionary is an
    association list: Python dictionaries keep their insertion order, and the
    order of the keys of [to_simplified_dict] is part of what is verified.
    Python exceptions are the [Raise] outcomes of an error monad. *)

From Stdlib Require Import String Ascii List ZArith QArith Bool Lia.
From Stdlib Require Import Permutation.
Import ListNotations.
Open Scope string_scope.

(** ** Python values *)

#[local] Set Warnings "-register-all".

Inductive pyval : Type :=
| VNone
| VBool (b : bool)
| VInt (z : Z)
| VFloat (q : Q)
| VStr (s : string)
| VList (l : list pyval)
| VDict (d : list (string * pyval)).

(** A [dict] with string keys.  A key is bound to the first pair that
    carries it. *)
Definition pydict : Type := list (string * pyval).

(** ** Exceptions *)

Inductive exn : Type :=
| AttributeError   (* a method that the object does not have *)
| TypeError        (* [in] on an object that is no container *)
| ValidationError. (* a value refused by a field of the model *)

Inductive result (A : Type) : Type :=
| Ok (a : A)
| Raise (e : exn).

Arguments Ok {A} a.
Arguments Raise {A} e.

Definition bind {A B : Type} (m : result A) (k : A -> result B) : result B :=
  match m with
  | Ok a => k a
  | Raise e => Raise e
  end.

Notation "x <- m ;; k" := (bind m (fun x => k))
  (at level 61, m at next level, right associativity).

(** ** The fragment of Python the module uses *)

Module Py.

(** [bool(v)]: the truth value of an object. *)
Definition truthy (v : pyval) : bool :=
  match v with
  | VNone => false
  | VBool b => b
  | VInt z => negb (Z.eqb z 0)
  | VFloat q => negb (Qeq_bool q 0)
  | VStr s => negb (String.eqb s "")
  | VList l => match l with [] => false | _ :: _ => true end
  | VDict d => match d with [] => false | _ :: _ => true end
  end.

Fixpoint lookup (k : string) (d : pydict) : option pyval :=
  match d with
  | [] => None
  | (k', v) :: d' => if String.eqb k k' then Some v else lookup k d'
  end.

(** [d.get(k, default)] on a dictionary. *)
Definition dict_get (d : pydict) (k : string) (default : pyval) : pyval :=
  match lookup k d with
  | Some v => v
  | None => default
  end.

(** [obj.get(k, default)]: only a dictionary has the method. *)
Definition get (obj : pyval) (k : string) (default : pyval) : result pyval :=
  match obj with
  | VDict d => Ok (dict_get d k default)
  | _ => Raise AttributeError
  end.

(** [list(obj.keys())]. *)
Definition keys (obj : pyval) : result (list string) :=
  match obj with
  | VDict d => Ok (map fst d)
  | _ => Raise AttributeError
  end.

(** [v == s] for a string [s]: among the values of [pyval] a string is
    equal to the same string only. *)
Definition eq_str (v : pyval) (s : string) : bool :=
  match v with
  | VStr s' => String.eqb s' s
  | _ => false
  end.

(** [needle in hay] on two strings: [needle] occurs in [hay]. *)
Definition str_contains (needle hay : string) : bool :=
  match String.index 0 needle hay with
  | Some _ => true
  | None => false
  end.

(** [s in container] for a string [s]: substring test on a string,
    membership on a list, key membership on a dictionary; any other
    object is not iterable. *)
Definition contains (s : string) (container : pyval) : result bool :=
  match container with
  | VStr hay => Ok (str_contains s hay)
  | VList l => Ok (existsb (fun v => eq_str v s) l)
  | VDict d => Ok (existsb (fun kv => String.eqb (fst kv) s) d)
  | _ => Raise TypeError
  end.

Definition of_opt_str (o : option string) : pyval :=
  match o with
  | Some s => VStr s
  | None => VNone
  end.

Definition of_opt_int (o : option Z) : pyval :=
  match o with
  | Some z => VInt z
  | None => VNone
  end.

(** Shapes of values: a string, a string or [None], an integer or
    [None]. *)
Definition is_str (v : pyval) : bool :=
  match v with
  | VStr _ => true
  | _ => false
  end.

Definition is_opt_str (v : pyval) : bool :=
  match v with
  | VNone | VStr _ => true
  | _ => false
  end.

Definition is_opt_int (v : pyval) : bool :=
  match v with
  | VNone | VInt _ => true
  | _ => false
  end.

(** The key [k] is not bound in [d], or it is bound to a value of shape
    [shape]. *)
Definition absent_or (shape : pyval -> bool) (k : string) (d : pydict)
  : bool :=
  match lookup k d with
  | Some v => shape v
  | None => true
  end.

End Py.

(** ** What the module imports from the rest of the package *)

(** Modelled from the spec: [constants.UNASSIGNED] is imported by the module
    and declared elsewhere; the spec's worked example gives the sentinel as
    the string "Unassigned".  The proofs use of it only that it is not the
    empty string. *)
Definition UNASSIGNED : string := "Unassigned".

(** [base.ApiModel], the Pydantic base class of both records, is declared
    elsewhere.  What the module needs of it is the validation that the
    constructor [cls(...)] runs on each keyword argument against the field's
    annotation.  It is a parameter: [validate_str] and [validate_int] say
    which objects a [str] field and an [int] field accept ([None] of the
    option: refused), and the only behaviour relied on is that an object
    that already has the annotated type is kept as it is. *)
Class ApiModel : Type := {
  validate_str : pyval -> option string;
  validate_int : pyval -> option Z;
  validate_str_str : forall s, validate_str (VStr s) = Some s;
  validate_int_int : forall z, validate_int (VInt z) = Some z
}.

(** A field annotated [T | None]: [None] is accepted, any other object goes
    to the validator of [T]. *)
Definition optional {A : Type} (f : pyval -> option A) (v : pyval)
  : option (option A) :=
  match v with
  | VNone => Some None
  | _ => option_map Some (f v)
  end.

Definition field {A : Type} (o : option A) : result A :=
  match o with
  | Some a => Ok a
  | None => Raise ValidationError
  end.

(** The instance that accepts exactly the objects of the annotated type. *)
Definition exact_str (v : pyval) : option string :=
  match v with
  | VStr s => Some s
  | _ => None
  end.

Definition exact_int (v : pyval) : option Z :=
  match v with
  | VInt z => Some z
  | _ => None
  end.

Definition exact : ApiModel :=
  {| validate_str := exact_str;
     validate_int := exact_int;
     validate_str_str := fun s => eq_refl;
     validate_int_int := fun z => eq_refl |}.

Inductive warning : Type :=
| DeprecationWarning (message : string).

(** ** [class ConfluenceUser(ApiModel)] *)

Module ConfluenceUser.

Record t : Type := mk {
  account_id : option string;
  username : option string;
  display_name : string;
  email : option string;
  profile_picture : option string;
  is_active : bool;
  locale : option string
}.

(** [cls()]: every field takes the default of its declaration. *)
Definition defaults : t :=
  {| account_id := None;
     username := None;
     display_name := UNASSIGNED;
     email := None;
     profile_picture := None;
     is_active := true;
     locale := None |}.

(** The deprecated property [name]: the warning it emits and the value it
    returns. *)
Definition name (self : t) : list warning * string :=
  ([DeprecationWarning
      "The 'name' property is deprecated. Use 'display_name' instead."],
   display_name self).

Definition to_simplified_dict (self : t) : pydict :=
  [ ("display_name", VStr (display_name self));
    ("username", Py.of_opt_str (username self));
    ("email", Py.of_opt_str (email self));
    ("profile_picture", Py.of_opt_str (profile_picture self)) ].

Section Construction.

Context {M : ApiModel}.

(** [cls(account_id=..., username=..., ...)]: each keyword argument is
    validated against its field.  [is_active] receives the [bool] that
    [==] computed. *)
Definition cls (account_id' username' display_name' email'
                profile_picture' : pyval) (is_active' : bool)
               (locale' : pyval) : result t :=
  a <- field (optional validate_str account_id') ;;
  u <- field (optional validate_str username') ;;
  n <- field (validate_str display_name') ;;
  e <- field (optional validate_str email') ;;
  p <- field (optional validate_str profile_picture') ;;
  l <- field (optional validate_str locale') ;;
  Ok {| account_id := a;
        username := u;
        display_name := n;
        email := e;
        profile_picture := p;
        is_active := is_active';
        locale := l |}.

Definition from_api_response (data : pyval) (kwargs : pydict) : result t :=
  if negb (Py.truthy data) then Ok defaults
  else
    (* the debug message is formatted before it is handed to the logger *)
    _ <- Py.keys data ;;
    pic_data <- Py.get data "profilePicture" VNone ;;
    profile_pic <- (if Py.truthy pic_data
                    then Py.get pic_data "path" VNone
                    else Ok VNone) ;;
    email0 <- Py.get data "email" VNone ;;
    email1 <- (if Py.truthy email0
               then Ok email0
               else Py.get data "emailAddress" VNone) ;;
    email2 <- (if negb (Py.truthy email1)
               then
                 username0 <- Py.get data "username" (VStr "") ;;
                 has_at <- Py.contains "@" username0 ;;
                 Ok (if has_at then username0 else email1)
               else Ok email1) ;;
    username1 <- Py.get data "username" VNone ;;
    username2 <- (if Py.truthy username1
                  then Ok username1
                  else Py.get data "name" VNone) ;;
    account <- Py.get data "accountId" VNone ;;
    shown <- Py.get data "displayName" (VStr UNASSIGNED) ;;
    status <- Py.get data "accountStatus" VNone ;;
    loc <- Py.get data "locale" VNone ;;
    cls account username2 shown email2 profile_pic
        (Py.eq_str status "active") loc.

End Construction.

(** The payloads on which construction is shown to succeed: each key the
    code reads is absent or bound to a value its use supports.  A profile
    picture is falsy or a mapping; a user name is a string. *)
Definition picture_ok (v : pyval) : bool :=
  if Py.truthy v
  then match v with
       | VDict p => Py.absent_or Py.is_opt_str "path" p
       | _ => false
       end
  else true.

(** The raw "username" is a string in which "@" occurs. *)
Definition username_has_at (d : pydict) : bool :=
  match Py.lookup "username" d with
  | Some (VStr u) => Py.str_contains "@" u
  | _ => false
  end.

Definition conforms (d : pydict) : bool :=
  Py.absent_or Py.is_opt_str "accountId" d
  && Py.absent_or Py.is_str "username" d
  && Py.absent_or Py.is_opt_str "name" d
  && Py.absent_or Py.is_str "displayName" d
  && Py.absent_or Py.is_opt_str "email" d
  && Py.absent_or Py.is_opt_str "emailAddress" d
  && Py.absent_or picture_ok "profilePicture" d
  && Py.absent_or Py.is_opt_str "locale" d.

End ConfluenceUser.

(** ** [class ConfluenceAttachment(ApiModel)] *)

Module ConfluenceAttachment.

Record t : Type := mk {
  id : option string;
  type : option string;
  status : option string;
  title : option string;
  media_type : option string;
  file_size : option Z
}.

Definition defaults : t :=
  {| id := None;
     type := None;
     status := None;
     title := None;
     media_type := None;
     file_size := None |}.

Definition to_simplified_dict (self : t) : pydict :=
  [ ("id", Py.of_opt_str (id self));
    ("type", Py.of_opt_str (type self));
    ("status", Py.of_opt_str (status self));
    ("title", Py.of_opt_str (title self));
    ("media_type", Py.of_opt_str (media_type self));
    ("file_size", Py.of_opt_int (file_size self)) ].

Section Construction.

Context {M : ApiModel}.

Definition cls (id' type' status' title' media_type' file_size' : pyval)
  : result t :=
  i <- field (optional validate_str id') ;;
  ty <- field (optional validate_str type') ;;
  st <- field (optional validate_str status') ;;
  ti <- field (optional validate_str title') ;;
  mt <- field (optional validate_str media_type') ;;
  fs <- field (optional validate_int file_size') ;;
  Ok {| id := i;
        type := ty;
        status := st;
        title := ti;
        media_type := mt;
        file_size := fs |}.

Definition from_api_response (data : pyval) (kwargs : pydict) : result t :=
  if negb (Py.truthy data) then Ok defaults
  else
    i <- Py.get data "id" VNone ;;
    ty <- Py.get data "type" VNone ;;
    st <- Py.get data "status" VNone ;;
    ti <- Py.get data "title" VNone ;;
    ext <- Py.get data "extensions" (VDict []) ;;
    mt <- Py.get ext "mediaType" VNone ;;
    ext' <- Py.get data "extensions" (VDict []) ;;
    fs <- Py.get ext' "fileSize" VNone ;;
    cls i ty st ti mt fs.

End Construction.

(** The payloads on which construction is shown to succeed: the nested
    "extensions" object is absent or a mapping. *)
Definition extensions_ok (v : pyval) : bool :=
  match v with
  | VDict e =>
      Py.absent_or Py.is_opt_str "mediaType" e
      && Py.absent_or Py.is_opt_int "fileSize" e
  | _ => false
  end.

Definition conforms (d : pydict) : bool :=
  Py.absent_or Py.is_opt_str "id" d
  && Py.absent_or Py.is_opt_str "type" d
  && Py.absent_or Py.is_opt_str "status" d
  && Py.absent_or Py.is_opt_str "title" d
  && Py.absent_or extensions_ok "extensions" d.

End ConfluenceAttachment.

(** ** What the constructors look at *)

(** The keys that [ConfluenceUser.from_api_response] passes to [get] on the
    raw mapping, and those of [ConfluenceAttachment.from_api_response]. *)
Definition user_keys : list string :=
  ["profilePicture"; "email"; "emailAddress"; "username"; "name";
   "accountId"; "displayName"; "accountStatus"; "locale"].

Definition attachment_keys : list string :=
  ["id"; "type"; "status"; "title"; "extensions"].

(** The objects on which [s in obj] is defined, see [Py.contains]. *)
Definition is_container (v : pyval) : bool :=
  match v with
  | VStr _ | VList _ | VDict _ => true
  | _ => false
  end.


(** * Verification *)

(** ** The error monad and the validators *)

Lemma bind_ok {A B : Type} (m : result A) (k : A -> result B) (b : B) :
  bind m k = Ok b -> exists a, m = Ok a /\ k a = Ok b.
Proof.
  destruct m as [a|e]; simpl; intros H; [eauto | discriminate].
Qed.

Lemma field_some {A : Type} (o : option A) (a : A) :
  field o = Ok a -> o = Some a.
Proof.
  destruct o; simpl; congruence.
Qed.

(** One step of a successful chain of binds: the step succeeded, with a
    value that is given a name. *)
Tactic Notation "bind_step" hyp(H) "as" ident(x) ident(E) :=
  apply bind_ok in H; destruct H as (x & E & H).

Lemma is_str_opt (v : pyval) : Py.is_str v = true -> Py.is_opt_str v = true.
Proof.
  destruct v; simpl; congruence.
Qed.

Lemma absent_or_dict_get (shape : pyval -> bool) (k : string) (d : pydict)
      (default : pyval) :
  Py.absent_or shape k d = true ->
  shape default = true ->
  shape (Py.dict_get d k default) = true.
Proof.
  unfold Py.absent_or, Py.dict_get. destruct (Py.lookup k d); auto.
Qed.

Lemma dict_get_lookup (d : pydict) (k : string) (default v : pyval) :
  Py.lookup k d = Some v -> Py.dict_get d k default = v.
Proof.
  unfold Py.dict_get. intros ->. reflexivity.
Qed.

Lemma dict_get_absent (d : pydict) (k : string) (default : pyval) :
  Py.lookup k d = None -> Py.dict_get d k default = default.
Proof.
  unfold Py.dict_get. intros ->. reflexivity.
Qed.

Lemma truthy_str (s : string) : s <> "" -> Py.truthy (VStr s) = true.
Proof.
  intros H. simpl. destruct (String.eqb_spec s ""); [contradiction | reflexivity].
Qed.

Section Validators.

Context {M : ApiModel}.

Lemma optional_str (s : string) :
  optional validate_str (VStr s) = Some (Some s).
Proof.
  simpl. rewrite validate_str_str. reflexivity.
Qed.

Lemma field_optional_str (v : pyval) :
  Py.is_opt_str v = true ->
  field (optional validate_str v) = Ok (exact_str v).
Proof.
  destruct v; simpl; try discriminate; intros _.
  - reflexivity.
  - rewrite validate_str_str. reflexivity.
Qed.

Lemma field_optional_int (v : pyval) :
  Py.is_opt_int v = true ->
  field (optional validate_int v) = Ok (exact_int v).
Proof.
  destruct v; simpl; try discriminate; intros _.
  - reflexivity.
  - rewrite validate_int_int. reflexivity.
Qed.

Lemma field_str (v : pyval) :
  Py.is_str v = true ->
  exists s, v = VStr s /\ field (validate_str v) = Ok s.
Proof.
  destruct v; simpl; try discriminate; intros _.
  eexists; split; [reflexivity|]. rewrite validate_str_str. reflexivity.
Qed.

End Validators.

(** ** Construction of a user, step by step *)

Section UserConstruction.

Context {M : ApiModel}.

Import ConfluenceUser.

(** On an empty or absent mapping the constructor is called without
    arguments. *)
Lemma user_of_falsy (data : pyval) (kwargs : pydict) :
  Py.truthy data = false -> from_api_response data kwargs = Ok defaults.
Proof.
  intros H. unfold from_api_response. rewrite H. reflexivity.
Qed.

(** A successful construction from a non-empty mapping, read backwards:
    the values of the intermediate variables and what each field of the
    record was validated from. *)
Lemma user_construction_inv (d : pydict) (kwargs : pydict) (r : t) :
  d <> [] ->
  from_api_response (VDict d) kwargs = Ok r ->
  exists profile_pic email1 email2 username2 : pyval,
    (if Py.truthy (Py.dict_get d "profilePicture" VNone)
     then Py.get (Py.dict_get d "profilePicture" VNone) "path" VNone
     else Ok VNone) = Ok profile_pic
    /\ email1 = (if Py.truthy (Py.dict_get d "email" VNone)
                 then Py.dict_get d "email" VNone
                 else Py.dict_get d "emailAddress" VNone)
    /\ (if negb (Py.truthy email1)
        then
          has_at <- Py.contains "@" (Py.dict_get d "username" (VStr "")) ;;
          Ok (if has_at then Py.dict_get d "username" (VStr "") else email1)
        else Ok email1) = Ok email2
    /\ username2 = (if Py.truthy (Py.dict_get d "username" VNone)
                    then Py.dict_get d "username" VNone
                    else Py.dict_get d "name" VNone)
    /\ optional validate_str (Py.dict_get d "accountId" VNone)
       = Some (account_id r)
    /\ optional validate_str username2 = Some (username r)
    /\ validate_str (Py.dict_get d "displayName" (VStr UNASSIGNED))
       = Some (display_name r)
    /\ optional validate_str email2 = Some (email r)
    /\ optional validate_str profile_pic = Some (profile_picture r)
    /\ is_active r = Py.eq_str (Py.dict_get d "accountStatus" VNone) "active"
    /\ optional validate_str (Py.dict_get d "locale" VNone)
       = Some (locale r).
Proof.
  intros Hd H. destruct d as [|p d']; [congruence|].
  unfold from_api_response in H. cbn [Py.truthy negb] in H.
  remember (p :: d') as d eqn:Ed.
  cbn [Py.keys Py.get bind] in H.
  bind_step H as pic Epic.
  bind_step H as e1 Ee1.
  bind_step H as e2 Ee2.
  bind_step H as u2 Eu2.
  unfold cls in H.
  bind_step H as fa Efa.
  bind_step H as fu Efu.
  bind_step H as fn Efn.
  bind_step H as fe Efe.
  bind_step H as fp Efp.
  bind_step H as fl Efl.
  injection H as <-. cbn [account_id username display_name email
                            profile_picture is_active locale].
  apply field_some in Efa, Efu, Efn, Efe, Efp, Efl.
  exists pic, e1, e2, u2.
  repeat split; try assumption.
  - destruct (Py.truthy (Py.dict_get d "email" VNone)); congruence.
  - destruct (Py.truthy (Py.dict_get d "username" VNone)); congruence.
Qed.

(** A conforming mapping is taken through every step. *)
Lemma user_construction_total (d : pydict) (kwargs : pydict) :
  conforms d = true ->
  exists r, from_api_response (VDict d) kwargs = Ok r.
Proof.
  intros H. destruct d as [|p d']; [eexists; reflexivity|].
  unfold from_api_response. cbn [Py.truthy negb].
  remember (p :: d') as d eqn:Ed. clear Ed p d'.
  unfold conforms in H. repeat rewrite andb_true_iff in H.
  destruct H as (((((((Ha & Hu) & Hn) & Hd) & He) & Hea) & Hp) & Hl).
  cbn [Py.keys Py.get bind].
  (* profile_pic *)
  assert (Hpic : exists pic,
             (if Py.truthy (Py.dict_get d "profilePicture" VNone)
              then Py.get (Py.dict_get d "profilePicture" VNone) "path" VNone
              else Ok VNone) = Ok pic /\ Py.is_opt_str pic = true).
  { pose proof (absent_or_dict_get picture_ok "profilePicture" d VNone Hp
                  eq_refl) as Hv.
    unfold picture_ok in Hv.
    destruct (Py.truthy (Py.dict_get d "profilePicture" VNone)).
    - destruct (Py.dict_get d "profilePicture" VNone); try discriminate.
      eexists; split; [reflexivity|].
      apply absent_or_dict_get; [assumption | reflexivity].
    - eexists; split; reflexivity. }
  destruct Hpic as (pic & -> & Hpic). cbn [bind].
  (* email *)
  pose proof (absent_or_dict_get _ "email" d VNone He eq_refl) as He'.
  pose proof (absent_or_dict_get _ "emailAddress" d VNone Hea eq_refl) as Hea'.
  pose proof (absent_or_dict_get _ "username" d (VStr "") Hu eq_refl) as Hu'.
  assert (He1 : exists e1,
             (if Py.truthy (Py.dict_get d "email" VNone)
              then Ok (Py.dict_get d "email" VNone)
              else Ok (Py.dict_get d "emailAddress" VNone)) = Ok e1
             /\ Py.is_opt_str e1 = true).
  { destruct (Py.truthy (Py.dict_get d "email" VNone)); eauto. }
  destruct He1 as (e1 & -> & He1). cbn [bind].
  assert (He2 : exists e2,
             (if negb (Py.truthy e1)
              then
                has_at <- Py.contains "@" (Py.dict_get d "username" (VStr "")) ;;
                Ok (if has_at then Py.dict_get d "username" (VStr "") else e1)
              else Ok e1) = Ok e2
             /\ Py.is_opt_str e2 = true).
  { destruct (negb (Py.truthy e1)); [|eauto].
    destruct (Py.dict_get d "username" (VStr "")); try discriminate.
    cbn [Py.contains bind].
    destruct (Py.str_contains "@" s); eauto. }
  destruct He2 as (e2 & -> & He2). cbn [bind].
  (* username *)
  assert (Hu2 : exists u2,
             (if Py.truthy (Py.dict_get d "username" VNone)
              then Ok (Py.dict_get d "username" VNone)
              else Ok (Py.dict_get d "name" VNone)) = Ok u2
             /\ Py.is_opt_str u2 = true).
  { destruct (Py.truthy (Py.dict_get d "username" VNone)).
    - eexists; split; [reflexivity|].
      unfold Py.absent_or in Hu. unfold Py.dict_get.
      destruct (Py.lookup "username" d); [apply is_str_opt; assumption|].
      reflexivity.
    - eexists; split; [reflexivity|].
      apply absent_or_dict_get; [assumption | reflexivity]. }
  destruct Hu2 as (u2 & -> & Hu2). cbn [bind].
  (* cls *)
  unfold cls.
  rewrite (field_optional_str _
             (absent_or_dict_get _ "accountId" d VNone Ha eq_refl)).
  cbn [bind]. rewrite (field_optional_str _ Hu2). cbn [bind].
  destruct (field_str _ (absent_or_dict_get _ "displayName" d
                           (VStr UNASSIGNED) Hd eq_refl)) as (n & _ & ->).
  cbn [bind]. rewrite (field_optional_str _ He2). cbn [bind].
  rewrite (field_optional_str _ Hpic). cbn [bind].
  rewrite (field_optional_str _
             (absent_or_dict_get _ "locale" d VNone Hl eq_refl)).
  cbn [bind]. eexists; reflexivity.
Qed.

End UserConstruction.

(** ** The worked examples of the specification *)

Example user_jane :
  ConfluenceUser.from_api_response (M := exact)
    (VDict [("displayName", VStr "Jane Doe"); ("username", VStr "jane@ex.com")])
    []
  = Ok {| ConfluenceUser.account_id := None;
          ConfluenceUser.username := Some "jane@ex.com";
          ConfluenceUser.display_name := "Jane Doe";
          ConfluenceUser.email := Some "jane@ex.com";
          ConfluenceUser.profile_picture := None;
          ConfluenceUser.is_active := false;
          ConfluenceUser.locale := None |}.
Proof.
  reflexivity.
Qed.

Example user_cloud :
  ConfluenceUser.from_api_response (M := exact)
    (VDict [("accountId", VStr "123"); ("accountStatus", VStr "active");
            ("email", VStr "j@x.com")])
    []
  = Ok {| ConfluenceUser.account_id := Some "123";
          ConfluenceUser.username := None;
          ConfluenceUser.display_name := UNASSIGNED;
          ConfluenceUser.email := Some "j@x.com";
          ConfluenceUser.profile_picture := None;
          ConfluenceUser.is_active := true;
          ConfluenceUser.locale := None |}.
Proof.
  reflexivity.
Qed.

Example attachment_png :
  ConfluenceAttachment.from_api_response (M := exact)
    (VDict [("extensions",
             VDict [("mediaType", VStr "image/png"); ("fileSize", VInt 2048)]);
            ("id", VStr "att1")])
    []
  = Ok {| ConfluenceAttachment.id := Some "att1";
          ConfluenceAttachment.type := None;
          ConfluenceAttachment.status := None;
          ConfluenceAttachment.title := None;
          ConfluenceAttachment.media_type := Some "image/png";
          ConfluenceAttachment.file_size := Some 2048%Z |}.
Proof.
  reflexivity.
Qed.

(** ** Users: activity *)

Lemma eq_str_active (d : pydict) :
  Py.eq_str (Py.dict_get d "accountStatus" VNone) "active" = true
  <-> Py.lookup "accountStatus" d = Some (VStr "active").
Proof.
  unfold Py.dict_get.
  destruct (Py.lookup "accountStatus" d) as [v|]; simpl.
  - destruct v; simpl; try (split; [discriminate | intros [=]]).
    rewrite String.eqb_eq. split; [intros -> | intros [=]]; congruence.
  - split; discriminate.
Qed.

(** C1, as amended.  For every non-empty raw user mapping, the record that
    [ConfluenceUser.from_api_response] returns has [is_active] true if and
    only if the raw "accountStatus" is exactly the string "active"; and on a
    conforming mapping a record is returned. *)
Theorem user_is_active_iff {M : ApiModel} (d kwargs : pydict) :
  d <> [] ->
  (forall r,
      ConfluenceUser.from_api_response (VDict d) kwargs = Ok r ->
      (ConfluenceUser.is_active r = true
       <-> Py.lookup "accountStatus" d = Some (VStr "active")))
  /\ (ConfluenceUser.conforms d = true ->
      exists r, ConfluenceUser.from_api_response (VDict d) kwargs = Ok r).
Proof.
  intros Hd. split.
  - intros r H.
    destruct (user_construction_inv d kwargs r Hd H)
      as (_ & _ & _ & _ & _ & _ & _ & _ & _ & _ & _ & _ & _ & Hact & _).
    rewrite Hact. apply eq_str_active.
  - apply user_construction_total.
Qed.

Lemma user_is_active_iff_witness :
  let d := [("accountId", VStr "123"); ("accountStatus", VStr "active");
            ("email", VStr "j@x.com")] in
  d <> []
  /\ (forall r,
         ConfluenceUser.from_api_response (M := exact) (VDict d) [] = Ok r ->
         (ConfluenceUser.is_active r = true
          <-> Py.lookup "accountStatus" d = Some (VStr "active")))
  /\ (ConfluenceUser.conforms d = true ->
      exists r, ConfluenceUser.from_api_response (M := exact) (VDict d) []
                = Ok r).
Proof.
  split; [discriminate | apply (@user_is_active_iff exact); discriminate].
Defined.

(** C1, as stated, fails on the empty mapping: "accountStatus" is absent and
    the record is active, because the constructor is called without
    arguments and [is_active] keeps its declared default. *)
Lemma user_is_active_empty_mapping :
  exists r,
    ConfluenceUser.from_api_response (M := exact) (VDict []) [] = Ok r
    /\ ~ (ConfluenceUser.is_active r = true
          <-> Py.lookup "accountStatus" [] = Some (VStr "active")).
Proof.
  exists ConfluenceUser.defaults. split; [reflexivity|].
  simpl. intros [H _]. specialize (H eq_refl). discriminate.
Qed.

(** ** Users: the e-mail address *)

Section UserEmail.

Context {M : ApiModel}.

Import ConfluenceUser.

Lemma user_email_cases (d kwargs : pydict) (r : t) :
  from_api_response (VDict d) kwargs = Ok r ->
  (forall s,
      Py.lookup "email" d = Some (VStr s) -> s <> "" -> email r = Some s)
  /\ (forall s,
         Py.truthy (Py.dict_get d "email" VNone) = false ->
         Py.lookup "emailAddress" d = Some (VStr s) -> s <> "" ->
         email r = Some s)
  /\ (forall u,
         Py.truthy (Py.dict_get d "email" VNone) = false ->
         Py.truthy (Py.dict_get d "emailAddress" VNone) = false ->
         Py.lookup "username" d = Some (VStr u) ->
         Py.str_contains "@" u = true ->
         email r = Some u)
  /\ (Py.truthy (Py.dict_get d "email" VNone) = false ->
      Py.absent_or Py.is_str "username" d = true ->
      username_has_at d = false ->
      (Py.dict_get d "emailAddress" VNone = VNone -> email r = None)
      /\ (Py.dict_get d "emailAddress" VNone = VStr "" ->
          email r = Some "")).
Proof.
  intros H. destruct d as [|p d'].
  { rewrite user_of_falsy in H by reflexivity. injection H as <-.
    repeat split; try discriminate; reflexivity. }
  remember (p :: d') as d eqn:Ed.
  assert (Hd : d <> []) by (subst d; discriminate).
  destruct (user_construction_inv d kwargs r Hd H)
    as (pic & e1 & e2 & u2 & _ & He1 & He2 & _ & _ & _ & _ & Hem & _).
  clear H Ed Hd p d'.
  split; [|split; [|split]].
  - intros s Hs Hne.
    rewrite (dict_get_lookup d "email" VNone _ Hs), (truthy_str s Hne) in He1.
    subst e1. rewrite (truthy_str s Hne) in He2. simpl in He2.
    injection He2 as <-. rewrite optional_str in Hem. congruence.
  - intros s Hf Hs Hne.
    rewrite Hf, (dict_get_lookup d "emailAddress" VNone _ Hs) in He1.
    subst e1. rewrite (truthy_str s Hne) in He2. simpl in He2.
    injection He2 as <-. rewrite optional_str in Hem. congruence.
  - intros u Hf Hfa Hu Hat.
    rewrite Hf in He1. subst e1. rewrite Hfa in He2.
    rewrite (dict_get_lookup d "username" (VStr "") _ Hu) in He2.
    cbn [negb Py.contains bind] in He2. rewrite Hat in He2.
    injection He2 as <-. rewrite optional_str in Hem. congruence.
  - intros Hf Hu Hat.
    rewrite Hf in He1. subst e1.
    assert (He2' : forall a,
               Py.dict_get d "emailAddress" VNone = a ->
               Py.truthy a = false -> e2 = a).
    { intros a Ea Ha. rewrite Ea, Ha in He2.
      unfold username_has_at in Hat. unfold Py.absent_or in Hu.
      unfold Py.dict_get in He2.
      destruct (Py.lookup "username" d) as [v|].
      - destruct v; try discriminate.
        cbn [negb Py.contains bind] in He2. rewrite Hat in He2. congruence.
      - cbn in He2. congruence. }
    split; intros Ea.
    + rewrite (He2' _ Ea eq_refl) in Hem. simpl in Hem. congruence.
    + rewrite (He2' _ Ea eq_refl), optional_str in Hem. congruence.
Qed.

End UserEmail.

(** C3, as amended.  For every raw user mapping, the e-mail address of the
    record is resolved first match first: the raw "email" when it is a
    non-empty string; else the raw "emailAddress" when it is a non-empty
    string; else the raw "username" when it is a string that contains "@";
    else, the user name being absent or a string without "@", the address is
    absent when "emailAddress" is absent or null, and is the empty string
    when "emailAddress" is the empty string.  On a conforming mapping a
    record is returned. *)
Theorem user_email_resolution {M : ApiModel} (d kwargs : pydict) :
  (forall r,
      ConfluenceUser.from_api_response (VDict d) kwargs = Ok r ->
      (forall s,
          Py.lookup "email" d = Some (VStr s) -> s <> "" ->
          ConfluenceUser.email r = Some s)
      /\ (forall s,
             Py.truthy (Py.dict_get d "email" VNone) = false ->
             Py.lookup "emailAddress" d = Some (VStr s) -> s <> "" ->
             ConfluenceUser.email r = Some s)
      /\ (forall u,
             Py.truthy (Py.dict_get d "email" VNone) = false ->
             Py.truthy (Py.dict_get d "emailAddress" VNone) = false ->
             Py.lookup "username" d = Some (VStr u) ->
             Py.str_contains "@" u = true ->
             ConfluenceUser.email r = Some u)
      /\ (Py.truthy (Py.dict_get d "email" VNone) = false ->
          Py.absent_or Py.is_str "username" d = true ->
          ConfluenceUser.username_has_at d = false ->
          (Py.dict_get d "emailAddress" VNone = VNone ->
           ConfluenceUser.email r = None)
          /\ (Py.dict_get d "emailAddress" VNone = VStr "" ->
              ConfluenceUser.email r = Some "")))
  /\ (ConfluenceUser.conforms d = true ->
      exists r, ConfluenceUser.from_api_response (VDict d) kwargs = Ok r).
Proof.
  split.
  - intros r H. exact (user_email_cases d kwargs r H).
  - apply user_construction_total.
Qed.

Lemma user_email_resolution_witness :
  let d := [("displayName", VStr "Jane Doe"); ("username", VStr "jane@ex.com")] in
  ConfluenceUser.conforms d = true
  /\ exists r,
      ConfluenceUser.from_api_response (M := exact) (VDict d) [] = Ok r
      /\ ConfluenceUser.email r = Some "jane@ex.com".
Proof.
  cbv zeta. split; [reflexivity|].
  destruct (@user_email_resolution exact
              [("displayName", VStr "Jane Doe");
               ("username", VStr "jane@ex.com")] []) as [Hcases Htotal].
  destruct (Htotal eq_refl) as [r Hr].
  exists r. split; [exact Hr|].
  destruct (Hcases r Hr) as (_ & _ & Husername & _).
  apply Husername; reflexivity.
Defined.

(** C3, as stated, fails where "emailAddress" is the empty string and
    nothing else gives an address: neither of the claim's first two cases
    applies, yet the e-mail address of the record is the empty string, not
    absent. *)
Lemma user_email_empty_address :
  let d := [("emailAddress", VStr "")] in
  exists r,
    ConfluenceUser.from_api_response (M := exact) (VDict d) [] = Ok r
    /\ Py.lookup "email" d = None
    /\ Py.truthy (Py.dict_get d "emailAddress" VNone) = false
    /\ ConfluenceUser.username_has_at d = false
    /\ ConfluenceUser.email r <> None.
Proof.
  cbv zeta. eexists. split; [reflexivity|].
  repeat split. discriminate.
Qed.

(** The address is also taken from a single one of the two keys: the first
    match wins without the other key being there. *)
Lemma user_email_single_key :
  exists r,
    ConfluenceUser.from_api_response (M := exact)
      (VDict [("accountId", VStr "123"); ("accountStatus", VStr "active");
              ("email", VStr "j@x.com")]) [] = Ok r
    /\ ConfluenceUser.email r = Some "j@x.com".
Proof.
  eexists. split; reflexivity.
Qed.

(** ** Users: the user name *)

Section UserName.

Context {M : ApiModel}.

Import ConfluenceUser.

Lemma user_username_cases (d kwargs : pydict) (r : t) :
  from_api_response (VDict d) kwargs = Ok r ->
  (forall s,
      Py.lookup "username" d = Some (VStr s) -> s <> "" ->
      username r = Some s)
  /\ (forall s,
         Py.truthy (Py.dict_get d "username" VNone) = false ->
         Py.lookup "name" d = Some (VStr s) ->
         username r = Some s)
  /\ (Py.truthy (Py.dict_get d "username" VNone) = false ->
      Py.dict_get d "name" VNone = VNone ->
      username r = None).
Proof.
  intros H. destruct d as [|p d'].
  { rewrite user_of_falsy in H by reflexivity. injection H as <-.
    repeat split; try discriminate; reflexivity. }
  remember (p :: d') as d eqn:Ed.
  assert (Hd : d <> []) by (subst d; discriminate).
  destruct (user_construction_inv d kwargs r Hd H)
    as (pic & e1 & e2 & u2 & _ & _ & _ & Hu2 & _ & Hus & _).
  clear H Ed Hd p d'.
  split; [|split].
  - intros s Hs Hne.
    rewrite (dict_get_lookup d "username" VNone _ Hs), (truthy_str s Hne)
      in Hu2.
    subst u2. rewrite optional_str in Hus. congruence.
  - intros s Hf Hs.
    rewrite Hf, (dict_get_lookup d "name" VNone _ Hs) in Hu2.
    subst u2. rewrite optional_str in Hus. congruence.
  - intros Hf Hn. rewrite Hf, Hn in Hu2. subst u2. simpl in Hus. congruence.
Qed.

End UserName.

(** C4, as amended.  For every raw user mapping, the user name of the record
    is the raw "username" whenever that is a non-empty string; else, the raw
    "username" being absent, null or empty, it is the raw "name" whenever
    that key is bound to a string; else, "name" being absent or null, it is
    absent.  On a conforming mapping a record is returned. *)
Theorem user_username_resolution {M : ApiModel} (d kwargs : pydict) :
  (forall r,
      ConfluenceUser.from_api_response (VDict d) kwargs = Ok r ->
      (forall s,
          Py.lookup "username" d = Some (VStr s) -> s <> "" ->
          ConfluenceUser.username r = Some s)
      /\ (forall s,
             Py.truthy (Py.dict_get d "username" VNone) = false ->
             Py.lookup "name" d = Some (VStr s) ->
             ConfluenceUser.username r = Some s)
      /\ (Py.truthy (Py.dict_get d "username" VNone) = false ->
          Py.dict_get d "name" VNone = VNone ->
          ConfluenceUser.username r = None))
  /\ (ConfluenceUser.conforms d = true ->
      exists r, ConfluenceUser.from_api_response (VDict d) kwargs = Ok r).
Proof.
  split.
  - intros r H. exact (user_username_cases d kwargs r H).
  - apply user_construction_total.
Qed.

Lemma user_username_resolution_witness :
  let d := [("username", VStr ""); ("name", VStr "bob")] in
  ConfluenceUser.conforms d = true
  /\ exists r,
      ConfluenceUser.from_api_response (M := exact) (VDict d) [] = Ok r
      /\ ConfluenceUser.username r = Some "bob".
Proof.
  cbv zeta. split; [reflexivity|].
  destruct (@user_username_resolution exact
              [("username", VStr ""); ("name", VStr "bob")] [])
    as [Hcases Htotal].
  destruct (Htotal eq_refl) as [r Hr].
  exists r. split; [exact Hr|].
  destruct (Hcases r Hr) as (_ & Hname & _).
  apply Hname; reflexivity.
Defined.

(** C4, as stated, fails where the key "username" is present with the empty
    string: the user name of the record is then taken from "name". *)
Lemma user_username_empty_string :
  let d := [("username", VStr ""); ("name", VStr "bob")] in
  exists r,
    ConfluenceUser.from_api_response (M := exact) (VDict d) [] = Ok r
    /\ Py.lookup "username" d = Some (VStr "")
    /\ ConfluenceUser.username r <> Some "".
Proof.
  cbv zeta. eexists. split; [reflexivity|].
  split; [reflexivity | discriminate].
Qed.

(** ** Users: the display name *)

Section UserDisplayName.

Context {M : ApiModel}.

Import ConfluenceUser.

Lemma user_display_name_cases (d kwargs : pydict) (r : t) :
  from_api_response (VDict d) kwargs = Ok r ->
  (forall s, Py.lookup "displayName" d = Some (VStr s) -> display_name r = s)
  /\ (Py.lookup "displayName" d = None -> display_name r = UNASSIGNED).
Proof.
  intros H. destruct d as [|p d'].
  { rewrite user_of_falsy in H by reflexivity. injection H as <-.
    split; [discriminate | reflexivity]. }
  remember (p :: d') as d eqn:Ed.
  assert (Hd : d <> []) by (subst d; discriminate).
  destruct (user_construction_inv d kwargs r Hd H)
    as (pic & e1 & e2 & u2 & _ & _ & _ & _ & _ & _ & Hn & _).
  split.
  - intros s Hs.
    rewrite (dict_get_lookup d "displayName" _ _ Hs), validate_str_str in Hn.
    congruence.
  - intros Hs.
    rewrite (dict_get_absent d "displayName" _ Hs), validate_str_str in Hn.
    congruence.
Qed.

End UserDisplayName.

(** C8.  For every raw user mapping, the record constructed by
    [ConfluenceUser.from_api_response] has a display name that is a string,
    never [None]: the raw "displayName" when the key is present (with the
    string the field holds), the sentinel [UNASSIGNED] when it is not, also
    for the absent mapping; the deprecated accessor [name] emits its warning
    and returns exactly the display name.  On a conforming mapping a record
    is returned. *)
Theorem user_display_name_never_absent {M : ApiModel} (d kwargs : pydict) :
  (forall r,
      ConfluenceUser.from_api_response (VDict d) kwargs = Ok r ->
      (forall s,
          Py.lookup "displayName" d = Some (VStr s) ->
          ConfluenceUser.display_name r = s)
      /\ (Py.lookup "displayName" d = None ->
          ConfluenceUser.display_name r = UNASSIGNED)
      /\ Py.lookup "display_name" (ConfluenceUser.to_simplified_dict r)
         = Some (VStr (ConfluenceUser.display_name r))
      /\ Py.lookup "display_name" (ConfluenceUser.to_simplified_dict r)
         <> Some VNone
      /\ snd (ConfluenceUser.name r) = ConfluenceUser.display_name r
      /\ fst (ConfluenceUser.name r) <> [])
  /\ (forall r,
         ConfluenceUser.from_api_response VNone kwargs = Ok r ->
         ConfluenceUser.display_name r = UNASSIGNED
         /\ snd (ConfluenceUser.name r) = ConfluenceUser.display_name r)
  /\ (ConfluenceUser.conforms d = true ->
      exists r, ConfluenceUser.from_api_response (VDict d) kwargs = Ok r).
Proof.
  split; [|split].
  - intros r H.
    destruct (user_display_name_cases d kwargs r H) as [Hs Ha].
    repeat split; try assumption; discriminate.
  - intros r H. rewrite user_of_falsy in H by reflexivity.
    injection H as <-. split; reflexivity.
  - apply user_construction_total.
Qed.

Lemma user_display_name_never_absent_witness :
  let d := [("displayName", VStr "Jane Doe"); ("username", VStr "jane@ex.com")] in
  ConfluenceUser.conforms d = true
  /\ exists r,
      ConfluenceUser.from_api_response (M := exact) (VDict d) [] = Ok r
      /\ ConfluenceUser.display_name r = "Jane Doe"
      /\ snd (ConfluenceUser.name r) = "Jane Doe".
Proof.
  cbv zeta. split; [reflexivity|].
  destruct (@user_display_name_never_absent exact
              [("displayName", VStr "Jane Doe");
               ("username", VStr "jane@ex.com")] [])
    as (Hcases & _ & Htotal).
  destruct (Htotal eq_refl) as [r Hr].
  exists r. split; [exact Hr|].
  destruct (Hcases r Hr) as (Hshown & _ & _ & _ & Hname & _).
  rewrite Hname. split; apply Hshown; reflexivity.
Defined.

(** A raw "displayName" bound to [None] does not give a record without a
    display name: the [str] field refuses it. *)
Lemma user_display_name_null_refused :
  ConfluenceUser.from_api_response (M := exact)
    (VDict [("displayName", VNone)]) [] = Raise ValidationError.
Proof.
  reflexivity.
Qed.

(** C10.  For every non-empty raw user mapping in which the key
    "displayName" is bound to a string, the display name of the record is
    that string verbatim, also when it is the empty string: an empty value
    does not bring the sentinel in.  On a conforming mapping a record is
    returned. *)
Theorem user_display_name_verbatim {M : ApiModel} (d kwargs : pydict)
        (s : string) :
  Py.lookup "displayName" d = Some (VStr s) ->
  d <> []
  /\ (forall r,
         ConfluenceUser.from_api_response (VDict d) kwargs = Ok r ->
         ConfluenceUser.display_name r = s
         /\ (s = "" -> ConfluenceUser.display_name r <> UNASSIGNED))
  /\ (ConfluenceUser.conforms d = true ->
      exists r,
        ConfluenceUser.from_api_response (VDict d) kwargs = Ok r
        /\ ConfluenceUser.display_name r = s).
Proof.
  intros Hs.
  assert (Hall : forall r,
             ConfluenceUser.from_api_response (VDict d) kwargs = Ok r ->
             ConfluenceUser.display_name r = s).
  { intros r H. destruct (user_display_name_cases d kwargs r H) as [Hv _].
    apply Hv, Hs. }
  split; [|split].
  - intros ->. discriminate.
  - intros r H. split; [apply Hall, H|].
    intros ->. rewrite (Hall r H). discriminate.
  - intros Hc. destruct (user_construction_total d kwargs Hc) as [r Hr].
    exists r. split; [exact Hr | apply Hall, Hr].
Qed.

Lemma user_display_name_verbatim_witness :
  let d := [("displayName", VStr ""); ("accountId", VStr "123")] in
  Py.lookup "displayName" d = Some (VStr "")
  /\ exists r,
      ConfluenceUser.from_api_response (M := exact) (VDict d) [] = Ok r
      /\ ConfluenceUser.display_name r = "".
Proof.
  cbv zeta. split; [reflexivity|].
  destruct (@user_display_name_verbatim exact
              [("displayName", VStr ""); ("accountId", VStr "123")] [] ""
              eq_refl)
    as (_ & _ & Htotal).
  exact (Htotal eq_refl).
Defined.

(** ** Users: the simplified view *)

(** C6.  For every user record, [to_simplified_dict] returns a mapping with
    exactly the four keys display_name, username, email, profile_picture, in
    that order; the keys account_id, is_active and locale are not among
    them, and the mapping does not depend on those three fields. *)
Theorem user_simplified_keys (r : ConfluenceUser.t) :
  map fst (ConfluenceUser.to_simplified_dict r)
  = ["display_name"; "username"; "email"; "profile_picture"]
  /\ ~ In "account_id" (map fst (ConfluenceUser.to_simplified_dict r))
  /\ ~ In "is_active" (map fst (ConfluenceUser.to_simplified_dict r))
  /\ ~ In "locale" (map fst (ConfluenceUser.to_simplified_dict r))
  /\ (forall a b l,
         ConfluenceUser.to_simplified_dict
           {| ConfluenceUser.account_id := a;
              ConfluenceUser.username := ConfluenceUser.username r;
              ConfluenceUser.display_name := ConfluenceUser.display_name r;
              ConfluenceUser.email := ConfluenceUser.email r;
              ConfluenceUser.profile_picture :=
                ConfluenceUser.profile_picture r;
              ConfluenceUser.is_active := b;
              ConfluenceUser.locale := l |}
         = ConfluenceUser.to_simplified_dict r).
Proof.
  split; [reflexivity|].
  repeat split; try reflexivity;
    simpl; intros H;
    repeat (destruct H as [H|H]; [discriminate|]); exact H.
Qed.

(** ** Construction of an attachment, step by step *)

Section AttachmentConstruction.

Context {M : ApiModel}.

Import ConfluenceAttachment.

Lemma attachment_of_falsy (data : pyval) (kwargs : pydict) :
  Py.truthy data = false -> from_api_response data kwargs = Ok defaults.
Proof.
  intros H. unfold from_api_response. rewrite H. reflexivity.
Qed.

Lemma attachment_construction_inv (d : pydict) (kwargs : pydict) (r : t) :
  d <> [] ->
  from_api_response (VDict d) kwargs = Ok r ->
  exists mt fs : pyval,
    Py.get (Py.dict_get d "extensions" (VDict [])) "mediaType" VNone = Ok mt
    /\ Py.get (Py.dict_get d "extensions" (VDict [])) "fileSize" VNone
       = Ok fs
    /\ optional validate_str (Py.dict_get d "id" VNone) = Some (id r)
    /\ optional validate_str (Py.dict_get d "type" VNone) = Some (type r)
    /\ optional validate_str (Py.dict_get d "status" VNone)
       = Some (status r)
    /\ optional validate_str (Py.dict_get d "title" VNone) = Some (title r)
    /\ optional validate_str mt = Some (media_type r)
    /\ optional validate_int fs = Some (file_size r).
Proof.
  intros Hd H. destruct d as [|p d']; [congruence|].
  unfold from_api_response in H. cbn [Py.truthy negb] in H.
  remember (p :: d') as d eqn:Ed.
  cbn [bind] in H. unfold Py.get at 1 2 3 4 5 7 in H. cbn [bind] in H.
  bind_step H as mt Emt.
  bind_step H as fs Efs.
  unfold cls in H.
  bind_step H as fi Efi.
  bind_step H as fy Efy.
  bind_step H as ft Eft.
  bind_step H as fl Efl.
  bind_step H as fm Efm.
  bind_step H as fz Efz.
  injection H as <-. cbn [id type status title media_type file_size].
  apply field_some in Efi, Efy, Eft, Efl, Efm, Efz.
  exists mt, fs. repeat split; assumption.
Qed.

Lemma attachment_construction_total (d : pydict) (kwargs : pydict) :
  conforms d = true ->
  exists r, from_api_response (VDict d) kwargs = Ok r.
Proof.
  intros H. destruct d as [|p d']; [eexists; reflexivity|].
  unfold from_api_response. cbn [Py.truthy negb].
  remember (p :: d') as d eqn:Ed. clear Ed p d'.
  unfold conforms in H. repeat rewrite andb_true_iff in H.
  destruct H as ((((Hi & Hy) & Hs) & Ht) & He).
  pose proof (absent_or_dict_get extensions_ok "extensions" d (VDict []) He
                eq_refl) as Hext.
  cbn [bind]. unfold Py.get at 1 2 3 4 5 7. cbn [bind].
  destruct (Py.dict_get d "extensions" (VDict [])) as [| | | | | |e];
    try discriminate.
  unfold extensions_ok in Hext. rewrite andb_true_iff in Hext.
  destruct Hext as [Hm Hf].
  cbn [Py.get bind]. unfold cls.
  rewrite (field_optional_str _
             (absent_or_dict_get _ "id" d VNone Hi eq_refl)).
  cbn [bind].
  rewrite (field_optional_str _
             (absent_or_dict_get _ "type" d VNone Hy eq_refl)).
  cbn [bind].
  rewrite (field_optional_str _
             (absent_or_dict_get _ "status" d VNone Hs eq_refl)).
  cbn [bind].
  rewrite (field_optional_str _
             (absent_or_dict_get _ "title" d VNone Ht eq_refl)).
  cbn [bind].
  rewrite (field_optional_str _
             (absent_or_dict_get _ "mediaType" e VNone Hm eq_refl)).
  cbn [bind].
  rewrite (field_optional_int _
             (absent_or_dict_get _ "fileSize" e VNone Hf eq_refl)).
  cbn [bind]. eexists; reflexivity.
Qed.

End AttachmentConstruction.

(** ** Attachments: the simplified view mirrors the record *)

Lemma of_opt_str_inj (a b : option string) :
  Py.of_opt_str a = Py.of_opt_str b -> a = b.
Proof.
  destruct a, b; simpl; congruence.
Qed.

Lemma of_opt_int_inj (a b : option Z) :
  Py.of_opt_int a = Py.of_opt_int b -> a = b.
Proof.
  destruct a, b; simpl; congruence.
Qed.

Lemma attachment_simplified_inj (r r' : ConfluenceAttachment.t) :
  ConfluenceAttachment.to_simplified_dict r'
  = ConfluenceAttachment.to_simplified_dict r ->
  r' = r.
Proof.
  destruct r, r'. unfold ConfluenceAttachment.to_simplified_dict. simpl.
  intros H. injection H as H1 H2 H3 H4 H5 H6.
  apply of_opt_str_inj in H1, H2, H3, H4, H5. apply of_opt_int_inj in H6.
  congruence.
Qed.

(** C7.  For every raw attachment mapping, the mapping that
    [to_simplified_dict] makes of the record constructed by
    [ConfluenceAttachment.from_api_response] has exactly the six keys id,
    type, status, title, media_type, file_size, each bound to the
    corresponding field of the record; nothing of the record is hidden, as
    the record can be read back from the mapping.  On a conforming mapping a
    record is returned. *)
Theorem attachment_round_trip {M : ApiModel} (data : pyval)
        (kwargs : pydict) :
  (forall r,
      ConfluenceAttachment.from_api_response data kwargs = Ok r ->
      let out := ConfluenceAttachment.to_simplified_dict r in
      map fst out
      = ["id"; "type"; "status"; "title"; "media_type"; "file_size"]
      /\ Py.lookup "id" out = Some (Py.of_opt_str (ConfluenceAttachment.id r))
      /\ Py.lookup "type" out
         = Some (Py.of_opt_str (ConfluenceAttachment.type r))
      /\ Py.lookup "status" out
         = Some (Py.of_opt_str (ConfluenceAttachment.status r))
      /\ Py.lookup "title" out
         = Some (Py.of_opt_str (ConfluenceAttachment.title r))
      /\ Py.lookup "media_type" out
         = Some (Py.of_opt_str (ConfluenceAttachment.media_type r))
      /\ Py.lookup "file_size" out
         = Some (Py.of_opt_int (ConfluenceAttachment.file_size r))
      /\ (forall r',
             ConfluenceAttachment.to_simplified_dict r' = out -> r' = r))
  /\ (forall d,
         data = VDict d ->
         ConfluenceAttachment.conforms d = true ->
         exists r, ConfluenceAttachment.from_api_response data kwargs = Ok r).
Proof.
  split.
  - intros r _. cbv zeta. repeat split.
    apply attachment_simplified_inj.
  - intros d -> Hc. apply attachment_construction_total, Hc.
Qed.

Lemma attachment_round_trip_witness :
  let d := [("extensions",
             VDict [("mediaType", VStr "image/png"); ("fileSize", VInt 2048)]);
            ("id", VStr "att1")] in
  ConfluenceAttachment.conforms d = true
  /\ exists r,
      ConfluenceAttachment.from_api_response (M := exact) (VDict d) [] = Ok r
      /\ map fst (ConfluenceAttachment.to_simplified_dict r)
         = ["id"; "type"; "status"; "title"; "media_type"; "file_size"]
      /\ Py.lookup "file_size" (ConfluenceAttachment.to_simplified_dict r)
         = Some (Py.of_opt_int (ConfluenceAttachment.file_size r)).
Proof.
  cbv zeta. split; [reflexivity|].
  destruct (@attachment_round_trip exact
              (VDict [("extensions",
                       VDict [("mediaType", VStr "image/png");
                              ("fileSize", VInt 2048)]);
                      ("id", VStr "att1")]) [])
    as [Hmirror Htotal].
  destruct (Htotal _ eq_refl eq_refl) as [r Hr].
  exists r. split; [exact Hr|].
  destruct (Hmirror r Hr) as (Hkeys & _ & _ & _ & _ & _ & Hsize & _).
  split; [exact Hkeys | exact Hsize].
Defined.

(** ** Empty and absent mappings *)

(** C5.  For the empty and for the absent raw mapping,
    [ConfluenceUser.from_api_response] returns the record whose optional
    fields are all absent, whose display name is the sentinel and whose
    [is_active] is true; [ConfluenceAttachment.from_api_response] returns
    the record with all six fields absent. *)
Theorem empty_mapping_defaults {M : ApiModel} (kwargs : pydict) :
  let user :=
    {| ConfluenceUser.account_id := None;
       ConfluenceUser.username := None;
       ConfluenceUser.display_name := UNASSIGNED;
       ConfluenceUser.email := None;
       ConfluenceUser.profile_picture := None;
       ConfluenceUser.is_active := true;
       ConfluenceUser.locale := None |} in
  let attachment :=
    {| ConfluenceAttachment.id := None;
       ConfluenceAttachment.type := None;
       ConfluenceAttachment.status := None;
       ConfluenceAttachment.title := None;
       ConfluenceAttachment.media_type := None;
       ConfluenceAttachment.file_size := None |} in
  ConfluenceUser.from_api_response (VDict []) kwargs = Ok user
  /\ ConfluenceUser.from_api_response VNone kwargs = Ok user
  /\ ConfluenceAttachment.from_api_response (VDict []) kwargs = Ok attachment
  /\ ConfluenceAttachment.from_api_response VNone kwargs = Ok attachment.
Proof.
  cbv zeta. repeat split.
Qed.

(** ** Keyword arguments *)

(** C9.  The records returned by both constructors do not depend on the
    extra keyword arguments: on the same raw mapping, any two sets of
    keyword arguments give the same outcome. *)
Theorem kwargs_ignored {M : ApiModel} (data : pyval)
        (kwargs kwargs' : pydict) :
  ConfluenceUser.from_api_response data kwargs
  = ConfluenceUser.from_api_response data kwargs'
  /\ ConfluenceAttachment.from_api_response data kwargs
     = ConfluenceAttachment.from_api_response data kwargs'.
Proof.
  split; reflexivity.
Qed.

(** ** Construction does not fail on conforming mappings *)

(** A key that is not bound reads as the default [None], which every
    optional field takes as it is. *)
Ltac absent_key E H :=
  rewrite (dict_get_absent _ _ _ E) in H; simpl in H; congruence.

Section Degradation.

Context {M : ApiModel}.

(** What is absent from a user mapping is absent from the record. *)
Lemma user_absent_fields (d kwargs : pydict) (r : ConfluenceUser.t) :
  ConfluenceUser.from_api_response (VDict d) kwargs = Ok r ->
  (Py.lookup "accountId" d = None -> ConfluenceUser.account_id r = None)
  /\ (Py.lookup "locale" d = None -> ConfluenceUser.locale r = None)
  /\ (Py.truthy (Py.dict_get d "profilePicture" VNone) = false ->
      ConfluenceUser.profile_picture r = None).
Proof.
  intros H. destruct d as [|p d'].
  { rewrite user_of_falsy in H by reflexivity. injection H as <-.
    repeat split. }
  remember (p :: d') as d eqn:Ed.
  assert (Hd : d <> []) by (subst d; discriminate).
  destruct (user_construction_inv d kwargs r Hd H)
    as (pic & e1 & e2 & u2 & Hpic & _ & _ & _ & Ha & _ & _ & _ & Hp & _
        & Hl).
  split; [|split].
  - intros E. absent_key E Ha.
  - intros E. absent_key E Hl.
  - intros E. rewrite E in Hpic. injection Hpic as <-. simpl in Hp.
    congruence.
Qed.

(** What is absent from an attachment mapping is absent from the
    record. *)
Lemma attachment_absent_fields (d kwargs : pydict)
      (r : ConfluenceAttachment.t) :
  ConfluenceAttachment.from_api_response (VDict d) kwargs = Ok r ->
  (Py.lookup "id" d = None -> ConfluenceAttachment.id r = None)
  /\ (Py.lookup "type" d = None -> ConfluenceAttachment.type r = None)
  /\ (Py.lookup "status" d = None -> ConfluenceAttachment.status r = None)
  /\ (Py.lookup "title" d = None -> ConfluenceAttachment.title r = None)
  /\ (Py.lookup "extensions" d = None ->
      ConfluenceAttachment.media_type r = None
      /\ ConfluenceAttachment.file_size r = None).
Proof.
  intros H. destruct d as [|p d'].
  { rewrite attachment_of_falsy in H by reflexivity. injection H as <-.
    repeat split. }
  remember (p :: d') as d eqn:Ed.
  assert (Hd : d <> []) by (subst d; discriminate).
  destruct (attachment_construction_inv d kwargs r Hd H)
    as (mt & fs & Hmt & Hfs & Hi & Hy & Hs & Ht & Hm & Hf).
  split; [|split; [|split; [|split]]]; intros E.
  - absent_key E Hi.
  - absent_key E Hy.
  - absent_key E Hs.
  - absent_key E Ht.
  - rewrite (dict_get_absent d _ _ E) in Hmt, Hfs.
    injection Hmt as <-. injection Hfs as <-.
    simpl in Hm, Hf. split; congruence.
Qed.

(** The failures do not come from the validation of the fields: a truthy
    "profilePicture" or an "extensions" that is not a mapping has no
    method [get]. *)
Lemma user_picture_not_mapping (d kwargs : pydict) (v : pyval) :
  Py.lookup "profilePicture" d = Some v ->
  Py.truthy v = true ->
  (forall p, v <> VDict p) ->
  ConfluenceUser.from_api_response (VDict d) kwargs = Raise AttributeError.
Proof.
  intros E Ht Hv. destruct d as [|p d']; [discriminate|].
  unfold ConfluenceUser.from_api_response. cbn [Py.truthy negb].
  remember (p :: d') as d eqn:Ed.
  cbn [Py.keys Py.get bind].
  rewrite (dict_get_lookup d _ _ _ E), Ht.
  destruct v; try reflexivity. exfalso. eapply Hv. reflexivity.
Qed.

Lemma attachment_extensions_not_mapping (d kwargs : pydict) (v : pyval) :
  Py.lookup "extensions" d = Some v ->
  (forall e, v <> VDict e) ->
  ConfluenceAttachment.from_api_response (VDict d) kwargs
  = Raise AttributeError.
Proof.
  intros E Hv. destruct d as [|p d']; [discriminate|].
  unfold ConfluenceAttachment.from_api_response. cbn [Py.truthy negb].
  remember (p :: d') as d eqn:Ed.
  cbn [bind]. unfold Py.get at 1 2 3 4 5. cbn [bind].
  rewrite (dict_get_lookup d _ _ _ E).
  destruct v; try reflexivity. exfalso. eapply Hv. reflexivity.
Qed.

End Degradation.

(** C2, as amended.  For every raw user mapping and every raw attachment
    mapping that conforms (each key the code reads is absent or of the shape
    its use supports: "profilePicture" falsy or a mapping, "username" a
    string, "extensions" a mapping, the other fields strings, integers or
    null as the record declares), also when partial or empty, and for the
    absent mapping, both constructors return a record without raising an
    error; a key that is absent leaves its field absent. *)
Theorem construction_total_on_conforming {M : ApiModel}
        (user_data attachment_data kwargs : pydict) :
  ConfluenceUser.conforms user_data = true ->
  ConfluenceAttachment.conforms attachment_data = true ->
  (exists r,
      ConfluenceUser.from_api_response (VDict user_data) kwargs = Ok r
      /\ (Py.lookup "accountId" user_data = None ->
          ConfluenceUser.account_id r = None)
      /\ (Py.lookup "locale" user_data = None ->
          ConfluenceUser.locale r = None)
      /\ (Py.truthy (Py.dict_get user_data "profilePicture" VNone) = false ->
          ConfluenceUser.profile_picture r = None))
  /\ (exists r,
         ConfluenceAttachment.from_api_response (VDict attachment_data) kwargs
         = Ok r
         /\ (Py.lookup "id" attachment_data = None ->
             ConfluenceAttachment.id r = None)
         /\ (Py.lookup "type" attachment_data = None ->
             ConfluenceAttachment.type r = None)
         /\ (Py.lookup "status" attachment_data = None ->
             ConfluenceAttachment.status r = None)
         /\ (Py.lookup "title" attachment_data = None ->
             ConfluenceAttachment.title r = None)
         /\ (Py.lookup "extensions" attachment_data = None ->
             ConfluenceAttachment.media_type r = None
             /\ ConfluenceAttachment.file_size r = None))
  /\ (exists r, ConfluenceUser.from_api_response VNone kwargs = Ok r)
  /\ (exists r, ConfluenceAttachment.from_api_response VNone kwargs = Ok r).
Proof.
  intros Hu Ha. split; [|split; [|split]].
  - destruct (user_construction_total user_data kwargs Hu) as [r Hr].
    exists r. split; [exact Hr|]. apply (user_absent_fields _ _ _ Hr).
  - destruct (attachment_construction_total attachment_data kwargs Ha)
      as [r Hr].
    exists r. split; [exact Hr|]. apply (attachment_absent_fields _ _ _ Hr).
  - eexists. reflexivity.
  - eexists. reflexivity.
Qed.

Lemma construction_total_on_conforming_witness :
  let user_data := [("displayName", VStr "Jane Doe");
                    ("profilePicture", VDict [("path", VStr "/p.png")])] in
  let attachment_data := [("id", VStr "att1"); ("extensions", VDict [])] in
  ConfluenceUser.conforms user_data = true
  /\ ConfluenceAttachment.conforms attachment_data = true
  /\ (exists r,
         ConfluenceUser.from_api_response (M := exact) (VDict user_data) []
         = Ok r)
  /\ (exists r,
         ConfluenceAttachment.from_api_response (M := exact)
           (VDict attachment_data) [] = Ok r).
Proof.
  cbv zeta. split; [reflexivity | split; [reflexivity|]].
  destruct (@construction_total_on_conforming exact
              [("displayName", VStr "Jane Doe");
               ("profilePicture", VDict [("path", VStr "/p.png")])]
              [("id", VStr "att1"); ("extensions", VDict [])] []
              eq_refl eq_refl)
    as ((r & Hr & _) & (r' & Hr' & _) & _).
  split; [exists r; exact Hr | exists r'; exact Hr'].
Defined.

(** C2, as stated, fails on a "profilePicture" that is a non-empty string:
    the code asks the string for its method [get]. *)
Lemma user_picture_string_raises :
  ConfluenceUser.from_api_response (M := exact)
    (VDict [("profilePicture", VStr "abc")]) [] = Raise AttributeError.
Proof.
  reflexivity.
Qed.

(** An "extensions" key bound to [None] is not replaced by the default of
    [get], which stands in for an absent key only. *)
Lemma attachment_extensions_null_raises :
  ConfluenceAttachment.from_api_response (M := exact)
    (VDict [("id", VStr "att1"); ("extensions", VNone)]) []
  = Raise AttributeError.
Proof.
  reflexivity.
Qed.

(** A null "username" in a mapping without an e-mail address is not a
    container for [in]. *)
Lemma user_username_null_raises :
  ConfluenceUser.from_api_response (M := exact)
    (VDict [("username", VNone)]) [] = Raise TypeError.
Proof.
  reflexivity.
Qed.


(** * Further properties of the two constructors *)

(** ** The mapping is read through [get] only *)

Lemma lookup_cons_other (k k' : string) (v : pyval) (d : pydict) :
  k' <> k -> Py.lookup k' ((k, v) :: d) = Py.lookup k' d.
Proof.
  intros H. simpl. destruct (String.eqb_spec k' k); [contradiction|].
  reflexivity.
Qed.

Lemma lookup_not_in (k : string) (d : pydict) :
  ~ In k (map fst d) -> Py.lookup k d = None.
Proof.
  induction d as [|[k' v] d IH]; simpl; [reflexivity|].
  intros H. destruct (String.eqb_spec k k') as [->|_].
  - exfalso. apply H. left. reflexivity.
  - apply IH. intros Hin. apply H. right. exact Hin.
Qed.

Lemma lookup_in (k : string) (d : pydict) :
  In k (map fst d) -> exists v, Py.lookup k d = Some v.
Proof.
  induction d as [|[k' v] d IH]; simpl; [intros []|].
  intros H. destruct (String.eqb_spec k k') as [->|Hne]; [eauto|].
  destruct H as [H|H]; [congruence | exact (IH H)].
Qed.

(** With distinct keys, as in a Python dictionary, the binding of a key
    does not depend on the order of the items. *)
Lemma lookup_permutation (k : string) (d d' : pydict) :
  NoDup (map fst d) -> Permutation d d' -> Py.lookup k d = Py.lookup k d'.
Proof.
  intros Hnd Hp. induction Hp as [|[k1 v1] d d' Hp IH
                                  |[k1 v1] [k2 v2] d|d d' d'' Hp1 IH1 Hp2 IH2].
  - reflexivity.
  - simpl in *. inversion Hnd; subst.
    destruct (String.eqb k k1); [reflexivity | auto].
  - simpl in *. inversion Hnd as [|? ? Hn1 Hnd']; subst.
    destruct (String.eqb_spec k k2) as [E2|_];
      destruct (String.eqb_spec k k1) as [E1|_]; try reflexivity.
    exfalso. apply Hn1. left. congruence.
  - rewrite IH1 by exact Hnd. apply IH2.
    eapply Permutation_NoDup; [|exact Hnd].
    apply Permutation_map. exact Hp1.
Qed.

Section ReadThroughGet.

Context {M : ApiModel}.

(** Two non-empty mappings that bind the keys read in the same way give
    the same outcome, record or exception. *)
Lemma user_reads_its_keys (d d' kwargs : pydict) :
  d <> [] -> d' <> [] ->
  (forall k, In k user_keys -> Py.lookup k d = Py.lookup k d') ->
  ConfluenceUser.from_api_response (VDict d) kwargs
  = ConfluenceUser.from_api_response (VDict d') kwargs.
Proof.
  intros Hd Hd' H.
  destruct d as [|p d0]; [congruence|]. destruct d' as [|p' d0']; [congruence|].
  unfold ConfluenceUser.from_api_response. cbn [Py.truthy negb].
  remember (p :: d0) as d eqn:Ed. remember (p' :: d0') as d' eqn:Ed'.
  cbn [Py.keys Py.get bind]. unfold Py.dict_get.
  rewrite !(H "profilePicture"), !(H "email"), !(H "emailAddress"),
    !(H "username"), !(H "name"), !(H "accountId"), !(H "displayName"),
    !(H "accountStatus"), !(H "locale") by (simpl; tauto).
  reflexivity.
Qed.

Lemma attachment_reads_its_keys (d d' kwargs : pydict) :
  d <> [] -> d' <> [] ->
  (forall k, In k attachment_keys -> Py.lookup k d = Py.lookup k d') ->
  ConfluenceAttachment.from_api_response (VDict d) kwargs
  = ConfluenceAttachment.from_api_response (VDict d') kwargs.
Proof.
  intros Hd Hd' H.
  destruct d as [|p d0]; [congruence|]. destruct d' as [|p' d0']; [congruence|].
  unfold ConfluenceAttachment.from_api_response. cbn [Py.truthy negb].
  remember (p :: d0) as d eqn:Ed. remember (p' :: d0') as d' eqn:Ed'.
  unfold Py.get at 1 2 3 4 5 7 10 11 12 13 14 16. cbn [bind].
  unfold Py.dict_get.
  rewrite !(H "id"), !(H "type"), !(H "status"), !(H "title"),
    !(H "extensions") by (simpl; tauto).
  reflexivity.
Qed.

End ReadThroughGet.

(** X1.  A key that [ConfluenceUser.from_api_response] does not read is
    ignored: adding it to a non-empty raw mapping changes neither the record
    nor the exception. *)
Theorem user_unknown_key_ignored {M : ApiModel} (d kwargs : pydict)
        (k : string) (v : pyval) :
  d <> [] ->
  ~ In k user_keys ->
  ConfluenceUser.from_api_response (VDict ((k, v) :: d)) kwargs
  = ConfluenceUser.from_api_response (VDict d) kwargs.
Proof.
  intros Hd Hk. apply user_reads_its_keys; [discriminate | exact Hd |].
  intros k' Hin. apply lookup_cons_other. intros ->. exact (Hk Hin).
Qed.

Lemma user_unknown_key_ignored_witness :
  let d := [("accountId", VStr "123")] in
  d <> []
  /\ ~ In "timeZone" user_keys
  /\ ConfluenceUser.from_api_response (M := exact)
       (VDict (("timeZone", VStr "UTC") :: d)) []
     = ConfluenceUser.from_api_response (M := exact) (VDict d) [].
Proof.
  cbv zeta.
  assert (Hd : [("accountId", VStr "123")] <> []) by discriminate.
  assert (Hk : ~ In "timeZone" user_keys).
  { simpl. intros H.
    repeat (destruct H as [H|H]; [discriminate|]). exact H. }
  split; [exact Hd | split; [exact Hk|]].
  exact (@user_unknown_key_ignored exact _ [] "timeZone" (VStr "UTC") Hd Hk).
Defined.

(** X2.  A non-empty raw user mapping that binds none of the keys read is
    not treated as the empty mapping: the record has the defaults of every
    field but [is_active], which is false. *)
Theorem user_no_known_key {M : ApiModel} (d kwargs : pydict) :
  d <> [] ->
  (forall k, In k user_keys -> Py.lookup k d = None) ->
  ConfluenceUser.from_api_response (VDict d) kwargs
  = Ok {| ConfluenceUser.account_id := None;
          ConfluenceUser.username := None;
          ConfluenceUser.display_name := UNASSIGNED;
          ConfluenceUser.email := None;
          ConfluenceUser.profile_picture := None;
          ConfluenceUser.is_active := false;
          ConfluenceUser.locale := None |}.
Proof.
  intros Hd H.
  rewrite (user_reads_its_keys d [("", VNone)] kwargs Hd)
    by (discriminate || (intros k Hk; rewrite (H k Hk);
                         simpl in Hk;
                         repeat (destruct Hk as [<-|Hk]; [reflexivity|]);
                         destruct Hk)).
  unfold ConfluenceUser.from_api_response, ConfluenceUser.cls. simpl.
  change (Py.dict_get [("", VNone)] "displayName" (VStr UNASSIGNED))
    with (VStr UNASSIGNED).
  rewrite validate_str_str. reflexivity.
Qed.

Lemma user_no_known_key_witness :
  let d := [("timeZone", VStr "UTC")] in
  d <> []
  /\ (forall k, In k user_keys -> Py.lookup k d = None)
  /\ exists r,
      ConfluenceUser.from_api_response (M := exact) (VDict d) [] = Ok r
      /\ ConfluenceUser.is_active r = false.
Proof.
  cbv zeta.
  assert (Hd : [("timeZone", VStr "UTC")] <> []) by discriminate.
  assert (Hk : forall k, In k user_keys ->
                         Py.lookup k [("timeZone", VStr "UTC")] = None).
  { intros k Hk. simpl in Hk.
    repeat (destruct Hk as [<-|Hk]; [reflexivity|]). destruct Hk. }
  split; [exact Hd | split; [exact Hk|]].
  eexists. split; [exact (@user_no_known_key exact _ [] Hd Hk) | reflexivity].
Defined.

(** X3.  A key that [ConfluenceAttachment.from_api_response] does not read
    is ignored, on every raw mapping, the empty one included: a mapping of
    unknown keys only gives the record of the empty mapping. *)
Theorem attachment_unknown_key_ignored {M : ApiModel} (d kwargs : pydict)
        (k : string) (v : pyval) :
  ~ In k attachment_keys ->
  ConfluenceAttachment.from_api_response (VDict ((k, v) :: d)) kwargs
  = ConfluenceAttachment.from_api_response (VDict d) kwargs.
Proof.
  intros Hk.
  assert (Hl : forall k', In k' attachment_keys ->
                          Py.lookup k' ((k, v) :: d) = Py.lookup k' d).
  { intros k' Hin. apply lookup_cons_other. intros ->. exact (Hk Hin). }
  destruct d as [|p d].
  - unfold ConfluenceAttachment.from_api_response. cbn [Py.truthy negb].
    unfold Py.get at 1 2 3 4 5 7. cbn [bind]. unfold Py.dict_get.
    rewrite !(Hl "id"), !(Hl "type"), !(Hl "status"), !(Hl "title"),
      !(Hl "extensions") by (simpl; tauto).
    reflexivity.
  - apply attachment_reads_its_keys; [discriminate | discriminate | exact Hl].
Qed.

Lemma attachment_unknown_key_ignored_witness :
  ~ In "version" attachment_keys
  /\ ConfluenceAttachment.from_api_response (M := exact)
       (VDict [("version", VInt 3)]) []
     = ConfluenceAttachment.from_api_response (M := exact) (VDict []) [].
Proof.
  assert (Hk : ~ In "version" attachment_keys).
  { simpl. intros H.
    repeat (destruct H as [H|H]; [discriminate|]). exact H. }
  split; [exact Hk|].
  exact (@attachment_unknown_key_ignored exact [] [] "version" (VInt 3) Hk).
Defined.

(** X4.  The outcome of both constructors does not depend on the order of
    the items of the raw mapping. *)
Theorem construction_order_independent {M : ApiModel} (d d' kwargs : pydict) :
  NoDup (map fst d) ->
  Permutation d d' ->
  ConfluenceUser.from_api_response (VDict d) kwargs
  = ConfluenceUser.from_api_response (VDict d') kwargs
  /\ ConfluenceAttachment.from_api_response (VDict d) kwargs
     = ConfluenceAttachment.from_api_response (VDict d') kwargs.
Proof.
  intros Hnd Hp. destruct d as [|p d0].
  - apply Permutation_nil in Hp. subst d'. split; reflexivity.
  - assert (Hd' : d' <> []).
    { intros ->. apply Permutation_sym, Permutation_nil in Hp. discriminate. }
    split.
    + apply user_reads_its_keys; [discriminate | exact Hd' |].
      intros k _. apply lookup_permutation; assumption.
    + apply attachment_reads_its_keys; [discriminate | exact Hd' |].
      intros k _. apply lookup_permutation; assumption.
Qed.

Lemma construction_order_independent_witness :
  let d := [("displayName", VStr "Jane Doe"); ("username", VStr "jane@ex.com")] in
  let d' := [("username", VStr "jane@ex.com"); ("displayName", VStr "Jane Doe")] in
  NoDup (map fst d)
  /\ Permutation d d'
  /\ ConfluenceUser.from_api_response (M := exact) (VDict d) []
     = ConfluenceUser.from_api_response (M := exact) (VDict d') [].
Proof.
  cbv zeta.
  assert (Hnd : NoDup (map fst [("displayName", VStr "Jane Doe");
                                ("username", VStr "jane@ex.com")])).
  { simpl. constructor.
    - simpl. intros [H|[]]. discriminate.
    - constructor; [intros [] | constructor]. }
  assert (Hp : Permutation
                 [("displayName", VStr "Jane Doe");
                  ("username", VStr "jane@ex.com")]
                 [("username", VStr "jane@ex.com");
                  ("displayName", VStr "Jane Doe")])
    by apply perm_swap.
  split; [exact Hnd | split; [exact Hp|]].
  exact (proj1 (@construction_order_independent exact _ _ [] Hnd Hp)).
Defined.

(** ** Which exception, and when *)

Lemma field_raises {A : Type} (o : option A) (x : exn) :
  field o = Raise x -> x = ValidationError.
Proof.
  destruct o; simpl; congruence.
Qed.

Lemma bind_raises {A B : Type} (m : result A) (k : A -> result B) (x : exn) :
  bind m k = Raise x ->
  m = Raise x \/ exists a, m = Ok a /\ k a = Raise x.
Proof.
  destruct m as [a|e]; simpl; intros H; [right; eauto | left; congruence].
Qed.

(** One step of a failed chain of binds whose steps are field
    validations. *)
Ltac field_step H :=
  apply bind_raises in H;
  destruct H as [H|(? & _ & H)]; [exact (field_raises _ _ H)|].

Section Exceptions.

Context {M : ApiModel}.

(** The constructors of the records raise nothing but [ValidationError]. *)
Lemma user_cls_raises (a u n e p : pyval) (b : bool) (l : pyval) (x : exn) :
  ConfluenceUser.cls a u n e p b l = Raise x -> x = ValidationError.
Proof.
  unfold ConfluenceUser.cls. intros H.
  do 6 field_step H. discriminate.
Qed.

Lemma attachment_cls_raises (i ty st ti mt fs : pyval) (x : exn) :
  ConfluenceAttachment.cls i ty st ti mt fs = Raise x -> x = ValidationError.
Proof.
  unfold ConfluenceAttachment.cls. intros H.
  do 6 field_step H. discriminate.
Qed.

(** The three ways through [ConfluenceUser.from_api_response] on a
    non-empty mapping. *)
Lemma user_outcome (d kwargs : pydict) :
  d <> [] ->
  let P := Py.dict_get d "profilePicture" VNone in
  let E := Py.dict_get d "email" VNone in
  let A := Py.dict_get d "emailAddress" VNone in
  let U := Py.dict_get d "username" (VStr "") in
  (Py.truthy P = true /\ (forall p, P <> VDict p)
   /\ ConfluenceUser.from_api_response (VDict d) kwargs
      = Raise AttributeError)
  \/ ((Py.truthy P = false \/ exists p, P = VDict p)
      /\ Py.truthy E = false /\ Py.truthy A = false
      /\ is_container U = false
      /\ ConfluenceUser.from_api_response (VDict d) kwargs = Raise TypeError)
  \/ ((Py.truthy P = false \/ exists p, P = VDict p)
      /\ (Py.truthy E = true \/ Py.truthy A = true \/ is_container U = true)
      /\ exists a u n e p b l,
          ConfluenceUser.from_api_response (VDict d) kwargs
          = ConfluenceUser.cls a u n e p b l).
Proof.
  intros Hd. destruct d as [|p0 d0]; [congruence|].
  unfold ConfluenceUser.from_api_response. cbn [Py.truthy negb].
  remember (p0 :: d0) as d eqn:Ed. clear Ed Hd p0 d0.
  cbn [Py.keys Py.get bind]. cbv zeta.
  generalize (Py.dict_get d "profilePicture" VNone) as P.
  generalize (Py.dict_get d "email" VNone) as E.
  generalize (Py.dict_get d "emailAddress" VNone) as A.
  generalize (Py.dict_get d "username" (VStr "")) as U.
  intros U A E P.
  assert (HP : (Py.truthy P = true /\ forall p, P <> VDict p)
               \/ ((Py.truthy P = false \/ exists p, P = VDict p)
                   /\ exists pic,
                       (if Py.truthy P then Py.get P "path" VNone
                        else Ok VNone) = Ok pic)).
  { destruct (Py.truthy P) eqn:HP.
    - destruct P; try (left; split; [reflexivity | discriminate]).
      right. split; [right; eauto | simpl; eauto].
    - right. split; [left; reflexivity | eauto]. }
  destruct HP as [[HP Hn]|[HP [pic Hpic]]].
  { left. split; [exact HP | split; [exact Hn|]].
    rewrite HP. destruct P; try reflexivity. exfalso. eapply Hn. reflexivity. }
  right. rewrite Hpic. cbn [bind].
  assert (Hcls : forall e,
             exists a u n e' p b l,
               (username2 <-
                  (if Py.truthy (Py.dict_get d "username" VNone)
                   then Ok (Py.dict_get d "username" VNone)
                   else Ok (Py.dict_get d "name" VNone)) ;;
                ConfluenceUser.cls (Py.dict_get d "accountId" VNone) username2
                  (Py.dict_get d "displayName" (VStr UNASSIGNED)) e pic
                  (Py.eq_str (Py.dict_get d "accountStatus" VNone) "active")
                  (Py.dict_get d "locale" VNone))
               = ConfluenceUser.cls a u n e' p b l).
  { intros e. destruct (Py.truthy (Py.dict_get d "username" VNone));
      cbn [bind]; do 7 eexists; reflexivity. }
  destruct (Py.truthy E) eqn:HE; cbn [bind].
  { right. split; [exact HP | split; [left; reflexivity|]].
    rewrite HE. cbn [negb bind]. apply Hcls. }
  destruct (Py.truthy A) eqn:HA; cbn [negb bind].
  { right. split; [exact HP | split; [right; left; reflexivity|]].
    apply Hcls. }
  destruct (is_container U) eqn:HU.
  - right. split; [exact HP | split; [right; right; reflexivity|]].
    destruct U; try discriminate; cbn [Py.contains bind]; apply Hcls.
  - left. split; [exact HP|]. repeat split.
    destruct U; try discriminate; reflexivity.
Qed.

End Exceptions.

Lemma user_empty_ok {M : ApiModel} (kwargs : pydict) (x : exn) :
  ConfluenceUser.from_api_response (VDict []) kwargs <> Raise x.
Proof.
  discriminate.
Qed.

(** X5.  [ConfluenceUser.from_api_response] raises [AttributeError] on a raw
    mapping exactly when "profilePicture" is bound to a truthy value that is
    not a mapping. *)
Theorem user_attribute_error_iff {M : ApiModel} (d kwargs : pydict) :
  ConfluenceUser.from_api_response (VDict d) kwargs = Raise AttributeError
  <-> exists v,
      Py.lookup "profilePicture" d = Some v
      /\ Py.truthy v = true
      /\ forall p, v <> VDict p.
Proof.
  split.
  - intros H. destruct d as [|p0 d0]; [discriminate|].
    remember (p0 :: d0) as d eqn:Ed.
    assert (Hd : d <> []) by (subst d; discriminate).
    destruct (user_outcome d kwargs Hd)
      as [(Ht & Hn & _)|[(_ & _ & _ & _ & Hr)|(_ & _ & Hr)]].
    + unfold Py.dict_get in Ht, Hn.
      destruct (Py.lookup "profilePicture" d) as [v|]; [|discriminate].
      exists v. auto.
    + congruence.
    + destruct Hr as (a & u & n & e & p & b & l & Hr). rewrite Hr in H.
      apply user_cls_raises in H. discriminate.
  - intros (v & Hv & Ht & Hn).
    exact (user_picture_not_mapping d kwargs v Hv Ht Hn).
Qed.

Lemma user_attribute_error_iff_witness :
  let d := [("accountId", VStr "123"); ("profilePicture", VInt 7)] in
  (exists v,
      Py.lookup "profilePicture" d = Some v
      /\ Py.truthy v = true
      /\ forall p, v <> VDict p)
  /\ ConfluenceUser.from_api_response (M := exact) (VDict d) []
     = Raise AttributeError.
Proof.
  cbv zeta.
  assert (H : exists v,
             Py.lookup "profilePicture"
               [("accountId", VStr "123"); ("profilePicture", VInt 7)]
             = Some v
             /\ Py.truthy v = true
             /\ forall p, v <> VDict p).
  { exists (VInt 7). repeat split. discriminate. }
  split; [exact H|].
  exact (proj2 (@user_attribute_error_iff exact _ []) H).
Defined.

(** X6.  [ConfluenceUser.from_api_response] raises [TypeError] on a raw
    mapping exactly when the profile picture does not stop it (it is falsy
    or a mapping), neither "email" nor "emailAddress" holds a truthy value,
    and "username" is bound to a value that is no container: null, a
    boolean or a number. *)
Theorem user_type_error_iff {M : ApiModel} (d kwargs : pydict) :
  ConfluenceUser.from_api_response (VDict d) kwargs = Raise TypeError
  <-> (Py.truthy (Py.dict_get d "profilePicture" VNone) = false
       \/ exists p, Py.dict_get d "profilePicture" VNone = VDict p)
      /\ Py.truthy (Py.dict_get d "email" VNone) = false
      /\ Py.truthy (Py.dict_get d "emailAddress" VNone) = false
      /\ exists v,
          Py.lookup "username" d = Some v /\ is_container v = false.
Proof.
  split.
  - intros H. destruct d as [|p0 d0]; [discriminate|].
    remember (p0 :: d0) as d eqn:Ed.
    assert (Hd : d <> []) by (subst d; discriminate).
    destruct (user_outcome d kwargs Hd)
      as [(_ & _ & Hr)|[(HP & HE & HA & HU & _)|(_ & _ & Hr)]].
    + congruence.
    + repeat (split; [assumption|]).
      unfold Py.dict_get in HU.
      destruct (Py.lookup "username" d) as [v|]; [|discriminate].
      exists v. auto.
    + destruct Hr as (a & u & n & e & p & b & l & Hr). rewrite Hr in H.
      apply user_cls_raises in H. discriminate.
  - intros (HP & HE & HA & v & Hv & Hc).
    assert (Hd : d <> []) by (intros ->; discriminate).
    destruct (user_outcome d kwargs Hd)
      as [(Ht & Hn & _)|[(_ & _ & _ & _ & Hr)|(_ & Hor & _)]].
    + destruct HP as [HP|[p HP]]; [congruence | exfalso; exact (Hn p HP)].
    + exact Hr.
    + rewrite (dict_get_lookup d "username" _ v Hv) in Hor.
      destruct Hor as [Hor|[Hor|Hor]]; congruence.
Qed.

Lemma user_type_error_iff_witness :
  let d := [("displayName", VStr "Jane Doe"); ("username", VInt 42)] in
  ((Py.truthy (Py.dict_get d "profilePicture" VNone) = false
    \/ exists p, Py.dict_get d "profilePicture" VNone = VDict p)
   /\ Py.truthy (Py.dict_get d "email" VNone) = false
   /\ Py.truthy (Py.dict_get d "emailAddress" VNone) = false
   /\ exists v, Py.lookup "username" d = Some v /\ is_container v = false)
  /\ ConfluenceUser.from_api_response (M := exact) (VDict d) []
     = Raise TypeError.
Proof.
  cbv zeta.
  pose (d := [("displayName", VStr "Jane Doe"); ("username", VInt 42)]).
  assert (H : (Py.truthy (Py.dict_get d "profilePicture" VNone) = false
               \/ exists p, Py.dict_get d "profilePicture" VNone = VDict p)
              /\ Py.truthy (Py.dict_get d "email" VNone) = false
              /\ Py.truthy (Py.dict_get d "emailAddress" VNone) = false
              /\ exists v,
                  Py.lookup "username" d = Some v /\ is_container v = false).
  { split; [left; reflexivity|]. split; [reflexivity|].
    split; [reflexivity|]. exists (VInt 42). split; reflexivity. }
  split; [exact H|].
  exact (proj2 (@user_type_error_iff exact d []) H).
Defined.

(** X7.  [ConfluenceAttachment.from_api_response] raises [AttributeError]
    on a raw mapping exactly when "extensions" is bound to a value that is
    not a mapping, null included; and it never raises [TypeError]. *)
Theorem attachment_attribute_error_iff {M : ApiModel} (d kwargs : pydict) :
  (ConfluenceAttachment.from_api_response (VDict d) kwargs
   = Raise AttributeError
   <-> exists v,
       Py.lookup "extensions" d = Some v /\ forall e, v <> VDict e)
  /\ ConfluenceAttachment.from_api_response (VDict d) kwargs
     <> Raise TypeError.
Proof.
  assert (Hcases :
            (exists v, Py.lookup "extensions" d = Some v
                       /\ forall e, v <> VDict e)
            \/ (forall x,
                   ConfluenceAttachment.from_api_response (VDict d) kwargs
                   = Raise x -> x = ValidationError)).
  { destruct d as [|p0 d0]; [right; discriminate|].
    unfold ConfluenceAttachment.from_api_response. cbn [Py.truthy negb].
    remember (p0 :: d0) as d eqn:Ed. clear Ed p0 d0.
    cbn [bind]. unfold Py.get at 1 2 3 4 5 7. cbn [bind].
    destruct (Py.lookup "extensions" d) as [v|] eqn:E.
    - rewrite !(dict_get_lookup d "extensions" _ v E).
      destruct v; try (left; eexists; split; [reflexivity | discriminate]).
      right. intros x. cbn [Py.get bind]. apply attachment_cls_raises.
    - rewrite !(dict_get_absent d "extensions" _ E).
      right. intros x. cbn [Py.get bind]. apply attachment_cls_raises. }
  split; [split|].
  - intros H. destruct Hcases as [Hv|Hc]; [exact Hv|].
    apply Hc in H. discriminate.
  - intros (v & Hv & Hn).
    exact (attachment_extensions_not_mapping d kwargs v Hv Hn).
  - intros H. destruct Hcases as [(v & Hv & Hn)|Hc].
    + rewrite (attachment_extensions_not_mapping d kwargs v Hv Hn) in H.
      discriminate.
    + apply Hc in H. discriminate.
Qed.

Lemma attachment_attribute_error_iff_witness :
  let d := [("id", VStr "att1"); ("extensions", VList [])] in
  (exists v, Py.lookup "extensions" d = Some v /\ forall e, v <> VDict e)
  /\ ConfluenceAttachment.from_api_response (M := exact) (VDict d) []
     = Raise AttributeError.
Proof.
  cbv zeta.
  assert (H : exists v,
             Py.lookup "extensions"
               [("id", VStr "att1"); ("extensions", VList [])] = Some v
             /\ forall e, v <> VDict e).
  { exists (VList []). split; [reflexivity | discriminate]. }
  split; [exact H|].
  exact (proj2 (proj1 (@attachment_attribute_error_iff exact _ [])) H).
Defined.

(** X8.  An argument that is not a mapping: a falsy one (null, zero, the
    empty string or list) is taken for the absent mapping by both
    constructors, a truthy one makes both raise [AttributeError]. *)
Theorem non_mapping_argument {M : ApiModel} (data : pyval)
        (kwargs : pydict) :
  (forall d, data <> VDict d) ->
  (Py.truthy data = false ->
   ConfluenceUser.from_api_response data kwargs
   = Ok ConfluenceUser.defaults
   /\ ConfluenceAttachment.from_api_response data kwargs
      = Ok ConfluenceAttachment.defaults)
  /\ (Py.truthy data = true ->
      ConfluenceUser.from_api_response data kwargs = Raise AttributeError
      /\ ConfluenceAttachment.from_api_response data kwargs
         = Raise AttributeError).
Proof.
  intros Hn. split; intros Ht.
  - split; [apply user_of_falsy | apply attachment_of_falsy]; exact Ht.
  - unfold ConfluenceUser.from_api_response,
      ConfluenceAttachment.from_api_response.
    rewrite Ht. cbn [negb].
    destruct data; try (split; reflexivity).
    exfalso. eapply Hn. reflexivity.
Qed.

Lemma non_mapping_argument_witness :
  (forall d, VStr "user" <> VDict d)
  /\ Py.truthy (VStr "user") = true
  /\ ConfluenceUser.from_api_response (M := exact) (VStr "user") []
     = Raise AttributeError.
Proof.
  assert (Hn : forall d, VStr "user" <> VDict d) by discriminate.
  split; [exact Hn | split; [reflexivity|]].
  exact (proj1 (proj2 (@non_mapping_argument exact (VStr "user") [] Hn)
                  eq_refl)).
Defined.

(** ** Where the remaining fields come from *)

(** X9.  A "profilePicture" that is a non-empty mapping gives its "path":
    the record's profile picture is that string, and is absent when the
    nested mapping has no "path" or a null one. *)
Theorem user_profile_picture_path {M : ApiModel} (d kwargs p : pydict) :
  Py.lookup "profilePicture" d = Some (VDict p) ->
  p <> [] ->
  (forall r,
      ConfluenceUser.from_api_response (VDict d) kwargs = Ok r ->
      (forall s,
          Py.lookup "path" p = Some (VStr s) ->
          ConfluenceUser.profile_picture r = Some s)
      /\ (Py.dict_get p "path" VNone = VNone ->
          ConfluenceUser.profile_picture r = None))
  /\ (ConfluenceUser.conforms d = true ->
      exists r, ConfluenceUser.from_api_response (VDict d) kwargs = Ok r).
Proof.
  intros Hp Hne. split; [|apply user_construction_total].
  intros r H.
  assert (Hd : d <> []) by (intros ->; discriminate).
  destruct (user_construction_inv d kwargs r Hd H)
    as (pic & e1 & e2 & u2 & Hpic & _ & _ & _ & _ & _ & _ & _ & Hf & _).
  rewrite (dict_get_lookup d "profilePicture" _ _ Hp) in Hpic.
  destruct p as [|q p']; [congruence|]. cbn [Py.truthy Py.get] in Hpic.
  injection Hpic as <-. split.
  - intros s Hs. rewrite (dict_get_lookup _ "path" _ _ Hs), optional_str in Hf.
    congruence.
  - intros Hs. rewrite Hs in Hf. simpl in Hf. congruence.
Qed.

Lemma user_profile_picture_path_witness :
  let p := [("path", VStr "/img/jane.png"); ("width", VInt 48)] in
  let d := [("displayName", VStr "Jane Doe"); ("profilePicture", VDict p)] in
  Py.lookup "profilePicture" d = Some (VDict p)
  /\ p <> []
  /\ exists r,
      ConfluenceUser.from_api_response (M := exact) (VDict d) [] = Ok r
      /\ ConfluenceUser.profile_picture r = Some "/img/jane.png".
Proof.
  cbv zeta.
  assert (Hne : [("path", VStr "/img/jane.png"); ("width", VInt 48)] <> [])
    by discriminate.
  split; [reflexivity | split; [exact Hne|]].
  destruct (@user_profile_picture_path exact
              [("displayName", VStr "Jane Doe");
               ("profilePicture",
                VDict [("path", VStr "/img/jane.png"); ("width", VInt 48)])]
              [] _ eq_refl Hne) as [Hpath Htotal].
  destruct (Htotal eq_refl) as [r Hr].
  exists r. split; [exact Hr|].
  apply (Hpath r Hr). reflexivity.
Defined.

(** X10.  The account identifier and the locale of a user record are the
    raw "accountId" and "locale": the string when the key is bound to one,
    absent when it is bound to null. *)
Theorem user_account_and_locale {M : ApiModel} (d kwargs : pydict) :
  (forall r,
      ConfluenceUser.from_api_response (VDict d) kwargs = Ok r ->
      (forall s,
          Py.lookup "accountId" d = Some (VStr s) ->
          ConfluenceUser.account_id r = Some s)
      /\ (Py.lookup "accountId" d = Some VNone ->
          ConfluenceUser.account_id r = None)
      /\ (forall s,
             Py.lookup "locale" d = Some (VStr s) ->
             ConfluenceUser.locale r = Some s)
      /\ (Py.lookup "locale" d = Some VNone ->
          ConfluenceUser.locale r = None))
  /\ (ConfluenceUser.conforms d = true ->
      exists r, ConfluenceUser.from_api_response (VDict d) kwargs = Ok r).
Proof.
  split; [|apply user_construction_total].
  intros r H. destruct d as [|p0 d0].
  { repeat split; intros; discriminate. }
  remember (p0 :: d0) as d eqn:Ed.
  assert (Hd : d <> []) by (subst d; discriminate).
  destruct (user_construction_inv d kwargs r Hd H)
    as (pic & e1 & e2 & u2 & _ & _ & _ & _ & Ha & _ & _ & _ & _ & _ & Hl).
  split; [|split; [|split]].
  - intros s Hs. rewrite (dict_get_lookup d _ _ _ Hs), optional_str in Ha.
    congruence.
  - intros Hs. rewrite (dict_get_lookup d _ _ _ Hs) in Ha. simpl in Ha.
    congruence.
  - intros s Hs. rewrite (dict_get_lookup d _ _ _ Hs), optional_str in Hl.
    congruence.
  - intros Hs. rewrite (dict_get_lookup d _ _ _ Hs) in Hl. simpl in Hl.
    congruence.
Qed.

Lemma user_account_and_locale_witness :
  let d := [("accountId", VStr "123"); ("locale", VNone)] in
  ConfluenceUser.conforms d = true
  /\ exists r,
      ConfluenceUser.from_api_response (M := exact) (VDict d) [] = Ok r
      /\ ConfluenceUser.account_id r = Some "123"
      /\ ConfluenceUser.locale r = None.
Proof.
  cbv zeta. split; [reflexivity|].
  destruct (@user_account_and_locale exact
              [("accountId", VStr "123"); ("locale", VNone)] [])
    as [Hfields Htotal].
  destruct (Htotal eq_refl) as [r Hr].
  exists r. split; [exact Hr|].
  destruct (Hfields r Hr) as (Ha & _ & _ & Hl).
  split; [apply Ha | apply Hl]; reflexivity.
Defined.

Section AttachmentFields.

Context {M : ApiModel}.

Import ConfluenceAttachment.

Lemma optional_int (z : Z) : optional validate_int (VInt z) = Some (Some z).
Proof.
  simpl. rewrite validate_int_int. reflexivity.
Qed.

Lemma attachment_fields (d kwargs : pydict) (r : t) :
  from_api_response (VDict d) kwargs = Ok r ->
  (forall s, Py.lookup "id" d = Some (VStr s) -> id r = Some s)
  /\ (forall s, Py.lookup "type" d = Some (VStr s) -> type r = Some s)
  /\ (forall s, Py.lookup "status" d = Some (VStr s) -> status r = Some s)
  /\ (forall s, Py.lookup "title" d = Some (VStr s) -> title r = Some s)
  /\ (forall e,
         Py.lookup "extensions" d = Some (VDict e) ->
         (forall s,
             Py.lookup "mediaType" e = Some (VStr s) ->
             media_type r = Some s)
         /\ (forall z,
                Py.lookup "fileSize" e = Some (VInt z) ->
                file_size r = Some z)
         /\ (Py.dict_get e "mediaType" VNone = VNone -> media_type r = None)
         /\ (Py.dict_get e "fileSize" VNone = VNone -> file_size r = None)).
Proof.
  intros H. destruct d as [|p0 d0].
  { repeat split; intros; discriminate. }
  remember (p0 :: d0) as d eqn:Ed.
  assert (Hd : d <> []) by (subst d; discriminate).
  destruct (attachment_construction_inv d kwargs r Hd H)
    as (mt & fs & Hmt & Hfs & Hi & Hy & Hs & Ht & Hm & Hf).
  split; [|split; [|split; [|split]]].
  - intros s E. rewrite (dict_get_lookup d _ _ _ E), optional_str in Hi.
    congruence.
  - intros s E. rewrite (dict_get_lookup d _ _ _ E), optional_str in Hy.
    congruence.
  - intros s E. rewrite (dict_get_lookup d _ _ _ E), optional_str in Hs.
    congruence.
  - intros s E. rewrite (dict_get_lookup d _ _ _ E), optional_str in Ht.
    congruence.
  - intros e E. rewrite (dict_get_lookup d _ _ _ E) in Hmt, Hfs.
    cbn [Py.get] in Hmt, Hfs. injection Hmt as <-. injection Hfs as <-.
    split; [|split; [|split]].
    + intros s Es. rewrite (dict_get_lookup e _ _ _ Es), optional_str in Hm.
      congruence.
    + intros z Ez. rewrite (dict_get_lookup e _ _ _ Ez), optional_int in Hf.
      congruence.
    + intros Es. rewrite Es in Hm. simpl in Hm. congruence.
    + intros Ez. rewrite Ez in Hf. simpl in Hf. congruence.
Qed.

End AttachmentFields.

(** X11.  The fields of an attachment record are the raw values: "id",
    "type", "status" and "title" are copied from the keys of the same name,
    the media type and the file size are read in the nested "extensions"
    mapping under "mediaType" and "fileSize", and are absent when that
    mapping does not give them. *)
Theorem attachment_fields_copied {M : ApiModel} (d kwargs : pydict) :
  (forall r,
      ConfluenceAttachment.from_api_response (VDict d) kwargs = Ok r ->
      (forall s,
          Py.lookup "id" d = Some (VStr s) ->
          ConfluenceAttachment.id r = Some s)
      /\ (forall s,
             Py.lookup "type" d = Some (VStr s) ->
             ConfluenceAttachment.type r = Some s)
      /\ (forall s,
             Py.lookup "status" d = Some (VStr s) ->
             ConfluenceAttachment.status r = Some s)
      /\ (forall s,
             Py.lookup "title" d = Some (VStr s) ->
             ConfluenceAttachment.title r = Some s)
      /\ (forall e,
             Py.lookup "extensions" d = Some (VDict e) ->
             (forall s,
                 Py.lookup "mediaType" e = Some (VStr s) ->
                 ConfluenceAttachment.media_type r = Some s)
             /\ (forall z,
                    Py.lookup "fileSize" e = Some (VInt z) ->
                    ConfluenceAttachment.file_size r = Some z)
             /\ (Py.dict_get e "mediaType" VNone = VNone ->
                 ConfluenceAttachment.media_type r = None)
             /\ (Py.dict_get e "fileSize" VNone = VNone ->
                 ConfluenceAttachment.file_size r = None)))
  /\ (ConfluenceAttachment.conforms d = true ->
      exists r, ConfluenceAttachment.from_api_response (VDict d) kwargs = Ok r).
Proof.
  split.
  - intros r H. exact (attachment_fields d kwargs r H).
  - apply attachment_construction_total.
Qed.

Lemma attachment_fields_copied_witness :
  let e := [("mediaType", VStr "image/png"); ("fileSize", VInt 2048)] in
  let d := [("extensions", VDict e); ("title", VStr "logo.png")] in
  ConfluenceAttachment.conforms d = true
  /\ exists r,
      ConfluenceAttachment.from_api_response (M := exact) (VDict d) [] = Ok r
      /\ ConfluenceAttachment.title r = Some "logo.png"
      /\ ConfluenceAttachment.file_size r = Some 2048%Z.
Proof.
  cbv zeta. split; [reflexivity|].
  destruct (@attachment_fields_copied exact
              [("extensions",
                VDict [("mediaType", VStr "image/png");
                       ("fileSize", VInt 2048)]);
               ("title", VStr "logo.png")] [])
    as [Hfields Htotal].
  destruct (Htotal eq_refl) as [r Hr].
  exists r. split; [exact Hr|].
  destruct (Hfields r Hr) as (_ & _ & _ & Htitle & Hext).
  destruct (Hext _ eq_refl) as (_ & Hsize & _).
  split; [apply Htitle | apply Hsize]; reflexivity.
Defined.

(** ** The simplified view of an attachment, and reading it again *)

Section AttachmentView.

Context {M : ApiModel}.

Lemma optional_str_shape (v : pyval) (o : option string) :
  Py.is_opt_str v = true ->
  optional validate_str v = Some o ->
  Py.of_opt_str o = v.
Proof.
  destruct v; simpl; try discriminate; intros _.
  - intros [= <-]. reflexivity.
  - rewrite validate_str_str. intros [= <-]. reflexivity.
Qed.

Lemma optional_int_shape (v : pyval) (o : option Z) :
  Py.is_opt_int v = true ->
  optional validate_int v = Some o ->
  Py.of_opt_int o = v.
Proof.
  destruct v; simpl; try discriminate; intros _.
  - intros [= <-]. reflexivity.
  - rewrite validate_int_int. intros [= <-]. reflexivity.
Qed.

Lemma field_of_opt_str (o : option string) :
  field (optional validate_str (Py.of_opt_str o)) = Ok o.
Proof.
  destruct o; simpl; [rewrite validate_str_str|]; reflexivity.
Qed.

End AttachmentView.

(** X12.  On a conforming raw attachment mapping, construction followed by
    [to_simplified_dict] flattens the raw mapping: the six keys are bound to
    the raw "id", "type", "status", "title" and to the "mediaType" and
    "fileSize" of the nested "extensions", with [None] for what is
    absent. *)
Theorem attachment_simplified_of_raw {M : ApiModel} (d kwargs : pydict) :
  ConfluenceAttachment.conforms d = true ->
  exists r e,
    ConfluenceAttachment.from_api_response (VDict d) kwargs = Ok r
    /\ Py.dict_get d "extensions" (VDict []) = VDict e
    /\ ConfluenceAttachment.to_simplified_dict r
       = [ ("id", Py.dict_get d "id" VNone);
           ("type", Py.dict_get d "type" VNone);
           ("status", Py.dict_get d "status" VNone);
           ("title", Py.dict_get d "title" VNone);
           ("media_type", Py.dict_get e "mediaType" VNone);
           ("file_size", Py.dict_get e "fileSize" VNone) ].
Proof.
  intros Hc. destruct d as [|p0 d0].
  { exists ConfluenceAttachment.defaults, []. repeat split. }
  remember (p0 :: d0) as d eqn:Ed.
  assert (Hd : d <> []) by (subst d; discriminate).
  destruct (attachment_construction_total d kwargs Hc) as [r Hr].
  destruct (attachment_construction_inv d kwargs r Hd Hr)
    as (mt & fs & Hmt & Hfs & Hi & Hy & Hs & Ht & Hm & Hf).
  unfold ConfluenceAttachment.conforms in Hc.
  repeat rewrite andb_true_iff in Hc.
  destruct Hc as ((((Ci & Cy) & Cs) & Ct) & Ce).
  pose proof (absent_or_dict_get _ "extensions" d (VDict []) Ce eq_refl)
    as Hext.
  destruct (Py.dict_get d "extensions" (VDict [])) as [| | | | | |e];
    try discriminate.
  unfold ConfluenceAttachment.extensions_ok in Hext.
  rewrite andb_true_iff in Hext. destruct Hext as [Cm Cf].
  cbn [Py.get] in Hmt, Hfs. injection Hmt as <-. injection Hfs as <-.
  exists r, e. split; [exact Hr | split; [reflexivity|]].
  unfold ConfluenceAttachment.to_simplified_dict.
  rewrite (optional_str_shape _ _
             (absent_or_dict_get _ "id" d VNone Ci eq_refl) Hi),
    (optional_str_shape _ _
       (absent_or_dict_get _ "type" d VNone Cy eq_refl) Hy),
    (optional_str_shape _ _
       (absent_or_dict_get _ "status" d VNone Cs eq_refl) Hs),
    (optional_str_shape _ _
       (absent_or_dict_get _ "title" d VNone Ct eq_refl) Ht),
    (optional_str_shape _ _
       (absent_or_dict_get _ "mediaType" e VNone Cm eq_refl) Hm),
    (optional_int_shape _ _
       (absent_or_dict_get _ "fileSize" e VNone Cf eq_refl) Hf).
  reflexivity.
Qed.

Lemma attachment_simplified_of_raw_witness :
  let d := [("extensions",
             VDict [("mediaType", VStr "image/png"); ("fileSize", VInt 2048)]);
            ("id", VStr "att1")] in
  ConfluenceAttachment.conforms d = true
  /\ exists r,
      ConfluenceAttachment.from_api_response (M := exact) (VDict d) [] = Ok r
      /\ ConfluenceAttachment.to_simplified_dict r
         = [ ("id", VStr "att1"); ("type", VNone); ("status", VNone);
             ("title", VNone); ("media_type", VStr "image/png");
             ("file_size", VInt 2048) ].
Proof.
  cbv zeta. split; [reflexivity|].
  destruct (@attachment_simplified_of_raw exact
              [("extensions",
                VDict [("mediaType", VStr "image/png");
                       ("fileSize", VInt 2048)]);
               ("id", VStr "att1")] [] eq_refl)
    as (r & e & Hr & He & Hout).
  exists r. split; [exact Hr|].
  rewrite Hout. injection He as <-. reflexivity.
Defined.

(** X13.  The simplified view of an attachment is not a raw mapping of the
    same shape: read again by [ConfluenceAttachment.from_api_response] it
    gives back the identifier, type, status and title of the record, while
    the media type and the file size are lost, the view having no
    "extensions". *)
Theorem attachment_reparse {M : ApiModel} (r : ConfluenceAttachment.t)
        (kwargs : pydict) :
  ConfluenceAttachment.from_api_response
    (VDict (ConfluenceAttachment.to_simplified_dict r)) kwargs
  = Ok {| ConfluenceAttachment.id := ConfluenceAttachment.id r;
          ConfluenceAttachment.type := ConfluenceAttachment.type r;
          ConfluenceAttachment.status := ConfluenceAttachment.status r;
          ConfluenceAttachment.title := ConfluenceAttachment.title r;
          ConfluenceAttachment.media_type := None;
          ConfluenceAttachment.file_size := None |}.
Proof.
  destruct r as [i ty st ti mt fs].
  unfold ConfluenceAttachment.from_api_response,
    ConfluenceAttachment.to_simplified_dict, ConfluenceAttachment.cls.
  cbn [ConfluenceAttachment.id ConfluenceAttachment.type
       ConfluenceAttachment.status ConfluenceAttachment.title
       ConfluenceAttachment.media_type ConfluenceAttachment.file_size].
  cbn [Py.truthy negb]. unfold Py.get at 1 2 3 4 5 7. cbn [bind].
  change (Py.dict_get _ "id" VNone) with (Py.of_opt_str i).
  change (Py.dict_get _ "type" VNone) with (Py.of_opt_str ty).
  change (Py.dict_get _ "status" VNone) with (Py.of_opt_str st).
  change (Py.dict_get _ "title" VNone) with (Py.of_opt_str ti).
  change (Py.dict_get _ "extensions" (VDict [])) with (VDict []).
  cbn [Py.get Py.dict_get Py.lookup bind].
  rewrite !field_of_opt_str. cbn [bind]. reflexivity.
Qed.

(** ** Validation of attachments *)

Section AttachmentValidation.

Context {M : ApiModel}.

Import ConfluenceAttachment.

(** The constructor succeeds when every argument is accepted, and raises
    [ValidationError] when one is refused. *)
Lemma attachment_cls_cases (i ty st ti mt fs : pyval) :
  ((exists r, cls i ty st ti mt fs = Ok r)
   /\ optional validate_str i <> None
   /\ optional validate_str ty <> None
   /\ optional validate_str st <> None
   /\ optional validate_str ti <> None
   /\ optional validate_str mt <> None
   /\ optional validate_int fs <> None)
  \/ (cls i ty st ti mt fs = Raise ValidationError
      /\ (optional validate_str i = None
          \/ optional validate_str ty = None
          \/ optional validate_str st = None
          \/ optional validate_str ti = None
          \/ optional validate_str mt = None
          \/ optional validate_int fs = None)).
Proof.
  unfold cls.
  destruct (optional validate_str i); [|right; split; [reflexivity | tauto]].
  destruct (optional validate_str ty); [|right; split; [reflexivity | tauto]].
  destruct (optional validate_str st); [|right; split; [reflexivity | tauto]].
  destruct (optional validate_str ti); [|right; split; [reflexivity | tauto]].
  destruct (optional validate_str mt); [|right; split; [reflexivity | tauto]].
  destruct (optional validate_int fs); [|right; split; [reflexivity | tauto]].
  left. split; [eexists; reflexivity|]. repeat split; discriminate.
Qed.

(** With "extensions" absent or a mapping, construction is the call of the
    constructor on the values found. *)
Lemma attachment_as_cls (d kwargs e : pydict) :
  Py.dict_get d "extensions" (VDict []) = VDict e ->
  from_api_response (VDict d) kwargs
  = cls (Py.dict_get d "id" VNone) (Py.dict_get d "type" VNone)
        (Py.dict_get d "status" VNone) (Py.dict_get d "title" VNone)
        (Py.dict_get e "mediaType" VNone) (Py.dict_get e "fileSize" VNone).
Proof.
  intros He. destruct d as [|p0 d0].
  - injection He as <-. reflexivity.
  - unfold from_api_response. cbn [Py.truthy negb].
    remember (p0 :: d0) as d eqn:Ed.
    cbn [bind]. unfold Py.get at 1 2 3 4 5 7. cbn [bind].
    rewrite He. reflexivity.
Qed.

Lemma attachment_extensions_cases (d kwargs : pydict) :
  (exists e, Py.dict_get d "extensions" (VDict []) = VDict e)
  \/ from_api_response (VDict d) kwargs = Raise AttributeError.
Proof.
  unfold Py.dict_get.
  destruct (Py.lookup "extensions" d) as [v|] eqn:E; [|left; eauto].
  destruct v; try (right;
                   apply (attachment_extensions_not_mapping d kwargs _ E);
                   discriminate).
  left. eauto.
Qed.

End AttachmentValidation.

(** X14.  [ConfluenceAttachment.from_api_response] returns a record from a
    raw mapping exactly when "extensions" is absent or a mapping and every
    value found is accepted by its field; it raises [ValidationError]
    exactly when "extensions" is absent or a mapping and a value is
    refused. *)
Theorem attachment_success_iff {M : ApiModel} (d kwargs : pydict) :
  ((exists r, ConfluenceAttachment.from_api_response (VDict d) kwargs = Ok r)
   <-> exists e,
       Py.dict_get d "extensions" (VDict []) = VDict e
       /\ optional validate_str (Py.dict_get d "id" VNone) <> None
       /\ optional validate_str (Py.dict_get d "type" VNone) <> None
       /\ optional validate_str (Py.dict_get d "status" VNone) <> None
       /\ optional validate_str (Py.dict_get d "title" VNone) <> None
       /\ optional validate_str (Py.dict_get e "mediaType" VNone) <> None
       /\ optional validate_int (Py.dict_get e "fileSize" VNone) <> None)
  /\ (ConfluenceAttachment.from_api_response (VDict d) kwargs
      = Raise ValidationError
      <-> exists e,
          Py.dict_get d "extensions" (VDict []) = VDict e
          /\ (optional validate_str (Py.dict_get d "id" VNone) = None
              \/ optional validate_str (Py.dict_get d "type" VNone) = None
              \/ optional validate_str (Py.dict_get d "status" VNone) = None
              \/ optional validate_str (Py.dict_get d "title" VNone) = None
              \/ optional validate_str (Py.dict_get e "mediaType" VNone)
                 = None
              \/ optional validate_int (Py.dict_get e "fileSize" VNone)
                 = None)).
Proof.
  destruct (attachment_extensions_cases d kwargs) as [[e He]|Hr].
  - pose proof (attachment_as_cls d kwargs e He) as Hcls.
    destruct (attachment_cls_cases
                (Py.dict_get d "id" VNone) (Py.dict_get d "type" VNone)
                (Py.dict_get d "status" VNone) (Py.dict_get d "title" VNone)
                (Py.dict_get e "mediaType" VNone)
                (Py.dict_get e "fileSize" VNone))
      as [([r Hok] & Hacc)|(Hraise & Href)].
    + rewrite Hcls, Hok. split; split.
      * intros _. exists e. split; [exact He | exact Hacc].
      * intros _. exists r. reflexivity.
      * discriminate.
      * intros (e' & He' & Hor). rewrite He in He'. injection He' as <-.
        tauto.
    + rewrite Hcls, Hraise. split; split.
      * intros [r Hr]. discriminate.
      * intros (e' & He' & Hand). rewrite He in He'. injection He' as <-.
        tauto.
      * intros _. exists e. split; [exact He | exact Href].
      * reflexivity.
  - rewrite Hr. split; split.
    + intros [r H]. discriminate.
    + intros (e & He & _). rewrite (attachment_as_cls d kwargs e He) in Hr.
      apply attachment_cls_raises in Hr. discriminate.
    + discriminate.
    + intros (e & He & _). rewrite (attachment_as_cls d kwargs e He) in Hr.
      apply attachment_cls_raises in Hr. discriminate.
Qed.

Lemma attachment_success_iff_witness :
  let d := [("id", VStr "att1");
            ("extensions", VDict [("fileSize", VStr "large")])] in
  (exists e,
      Py.dict_get d "extensions" (VDict []) = VDict e
      /\ optional (validate_int (ApiModel := exact))
           (Py.dict_get e "fileSize" VNone) = None)
  /\ ConfluenceAttachment.from_api_response (M := exact) (VDict d) []
     = Raise ValidationError.
Proof.
  cbv zeta.
  split; [eexists; split; reflexivity|].
  apply (proj2 (@attachment_success_iff exact _ [])).
  eexists. split; [reflexivity|].
  right; right; right; right; right. reflexivity.
Defined.

(** ** Users: refused values, and reading the simplified view again *)

(** X15.  No user record is built around a value that a field refuses:
    when the raw "displayName", "accountId" or "locale" is bound to a value
    that the validation of its field does not accept,
    [ConfluenceUser.from_api_response] returns no record. *)
Theorem user_refused_value {M : ApiModel} (d kwargs : pydict) (v : pyval) :
  (Py.lookup "displayName" d = Some v /\ validate_str v = None)
  \/ (Py.lookup "accountId" d = Some v /\ optional validate_str v = None)
  \/ (Py.lookup "locale" d = Some v /\ optional validate_str v = None) ->
  forall r, ConfluenceUser.from_api_response (VDict d) kwargs <> Ok r.
Proof.
  intros Hv r H.
  assert (Hd : d <> []).
  { intros ->. destruct Hv as [[E _]|[[E _]|[E _]]]; discriminate. }
  destruct (user_construction_inv d kwargs r Hd H)
    as (pic & e1 & e2 & u2 & _ & _ & _ & _ & Ha & _ & Hn & _ & _ & _ & Hl).
  destruct Hv as [[E Hr]|[[E Hr]|[E Hr]]];
    rewrite (dict_get_lookup d _ _ _ E) in *; congruence.
Qed.

Lemma user_refused_value_witness :
  let d := [("displayName", VList [VStr "Jane"; VStr "Doe"])] in
  Py.lookup "displayName" d = Some (VList [VStr "Jane"; VStr "Doe"])
  /\ validate_str (ApiModel := exact) (VList [VStr "Jane"; VStr "Doe"]) = None
  /\ forall r,
      ConfluenceUser.from_api_response (M := exact) (VDict d) [] <> Ok r.
Proof.
  cbv zeta. split; [reflexivity | split; [reflexivity|]].
  apply (@user_refused_value exact _ [] (VList [VStr "Jane"; VStr "Doe"])).
  left. split; reflexivity.
Defined.

Section UserReparse.

Context {M : ApiModel}.

Import ConfluenceUser.

Lemma user_view_nonempty (r : t) : to_simplified_dict r <> [].
Proof.
  discriminate.
Qed.

Lemma user_reparse_fields (r r' : t) (kwargs : pydict) :
  from_api_response (VDict (to_simplified_dict r)) kwargs = Ok r' ->
  display_name r' = UNASSIGNED
  /\ is_active r' = false
  /\ account_id r' = None
  /\ profile_picture r' = None
  /\ locale r' = None.
Proof.
  intros H.
  destruct (user_construction_inv _ kwargs r' (user_view_nonempty r) H)
    as (pic & e1 & e2 & u2 & Hpic & _ & _ & _ & Ha & _ & Hn & _ & Hp & Hact
        & Hl).
  change (Py.dict_get (to_simplified_dict r) "profilePicture" VNone)
    with VNone in Hpic.
  change (Py.dict_get (to_simplified_dict r) "accountId" VNone)
    with VNone in Ha.
  change (Py.dict_get (to_simplified_dict r) "displayName" (VStr UNASSIGNED))
    with (VStr UNASSIGNED) in Hn.
  change (Py.dict_get (to_simplified_dict r) "accountStatus" VNone)
    with VNone in Hact.
  change (Py.dict_get (to_simplified_dict r) "locale" VNone)
    with VNone in Hl.
  cbn [Py.truthy] in Hpic. injection Hpic as <-.
  rewrite validate_str_str in Hn. simpl in Ha, Hp, Hl, Hact.
  repeat split; congruence.
Qed.

Lemma user_reparse_outcome (r : t) (kwargs : pydict) :
  (Py.truthy (Py.of_opt_str (email r)) = false /\ username r = None
   /\ from_api_response (VDict (to_simplified_dict r)) kwargs
      = Raise TypeError)
  \/ ((Py.truthy (Py.of_opt_str (email r)) = true \/ username r <> None)
      /\ exists r',
          from_api_response (VDict (to_simplified_dict r)) kwargs = Ok r').
Proof.
  destruct r as [a u n e p b l].
  unfold from_api_response, to_simplified_dict, cls.
  cbn [account_id username display_name email profile_picture is_active
       locale].
  cbn [Py.truthy negb Py.keys Py.get bind].
  change (Py.dict_get _ "profilePicture" VNone) with VNone.
  change (Py.dict_get _ "email" VNone) with (Py.of_opt_str e).
  change (Py.dict_get _ "emailAddress" VNone) with VNone.
  change (Py.dict_get _ "username" (VStr "")) with (Py.of_opt_str u).
  change (Py.dict_get _ "username" VNone) with (Py.of_opt_str u).
  change (Py.dict_get _ "name" VNone) with VNone.
  change (Py.dict_get _ "accountId" VNone) with VNone.
  change (Py.dict_get _ "displayName" (VStr UNASSIGNED))
    with (VStr UNASSIGNED).
  change (Py.dict_get _ "accountStatus" VNone) with VNone.
  change (Py.dict_get _ "locale" VNone) with VNone.
  cbn [Py.truthy bind].
  assert (Hcls : forall u2 e2,
             Py.is_opt_str u2 = true -> Py.is_opt_str e2 = true ->
             exists r',
               (a0 <- field (optional validate_str VNone) ;;
                u0 <- field (optional validate_str u2) ;;
                n0 <- field (validate_str (VStr UNASSIGNED)) ;;
                e0 <- field (optional validate_str e2) ;;
                p0 <- field (optional validate_str VNone) ;;
                l0 <- field (optional validate_str VNone) ;;
                Ok {| account_id := a0; username := u0; display_name := n0;
                      email := e0; profile_picture := p0;
                      is_active := Py.eq_str VNone "active";
                      locale := l0 |}) = Ok r').
  { intros u2 e2 Hu2 He2.
    rewrite (field_optional_str u2 Hu2), (field_optional_str e2 He2).
    rewrite validate_str_str. cbn [field optional bind]. eauto. }
  assert (Hu : forall u2,
             (exists r',
               (username2 <-
                  (if Py.truthy (Py.of_opt_str u)
                   then Ok (Py.of_opt_str u) else Ok VNone) ;;
                a0 <- field (optional validate_str VNone) ;;
                u0 <- field (optional validate_str username2) ;;
                n0 <- field (validate_str (VStr UNASSIGNED)) ;;
                e0 <- field (optional validate_str u2) ;;
                p0 <- field (optional validate_str VNone) ;;
                l0 <- field (optional validate_str VNone) ;;
                Ok {| account_id := a0; username := u0; display_name := n0;
                      email := e0; profile_picture := p0;
                      is_active := Py.eq_str VNone "active";
                      locale := l0 |}) = Ok r')
             \/ Py.is_opt_str u2 = false).
  { intros u2. destruct (Py.is_opt_str u2) eqn:Hu2; [left | right; reflexivity].
    destruct (Py.truthy (Py.of_opt_str u)); cbn [bind].
    - destruct (Hcls (Py.of_opt_str u) u2) as [r' Hr'];
        [destruct u; reflexivity | exact Hu2 | eauto].
    - destruct (Hcls VNone u2) as [r' Hr']; [reflexivity | exact Hu2 | eauto]. }
  destruct (Py.truthy (Py.of_opt_str e)) eqn:He; cbn [negb bind];
    rewrite ?He; cbn [Py.truthy negb bind].
  - right. split; [left; reflexivity|].
    destruct (Hu (Py.of_opt_str e)) as [[r' Hr']|Hr']; [eauto|].
    destruct e; simpl in Hr'; discriminate.
  - destruct u as [u|].
    + right. split; [right; discriminate|].
      cbn [Py.of_opt_str Py.contains bind].
      destruct (Py.str_contains "@" u).
      * destruct (Hu (VStr u)) as [[r' Hr']|Hr']; [eauto | discriminate].
      * destruct (Hu VNone) as [[r' Hr']|Hr']; [eauto | discriminate].
    + left. repeat split.
Qed.

End UserReparse.

(** X16.  The simplified view of a user is not a raw mapping of the same
    shape.  Read again by [ConfluenceUser.from_api_response], it raises
    [TypeError] when the record has no user name and no non-empty e-mail
    address, and gives a record in every other case; that record has lost
    the display name, replaced by the sentinel, is inactive, and has no
    account identifier, profile picture or locale. *)
Theorem user_reparse {M : ApiModel} (r : ConfluenceUser.t)
        (kwargs : pydict) :
  (Py.truthy (Py.of_opt_str (ConfluenceUser.email r)) = false ->
   ConfluenceUser.username r = None ->
   ConfluenceUser.from_api_response
     (VDict (ConfluenceUser.to_simplified_dict r)) kwargs = Raise TypeError)
  /\ (Py.truthy (Py.of_opt_str (ConfluenceUser.email r)) = true
      \/ ConfluenceUser.username r <> None ->
      exists r',
        ConfluenceUser.from_api_response
          (VDict (ConfluenceUser.to_simplified_dict r)) kwargs = Ok r')
  /\ (forall r',
         ConfluenceUser.from_api_response
           (VDict (ConfluenceUser.to_simplified_dict r)) kwargs = Ok r' ->
         ConfluenceUser.display_name r' = UNASSIGNED
         /\ ConfluenceUser.is_active r' = false
         /\ ConfluenceUser.account_id r' = None
         /\ ConfluenceUser.profile_picture r' = None
         /\ ConfluenceUser.locale r' = None).
Proof.
  split; [|split].
  - intros He Hu.
    destruct (user_reparse_outcome r kwargs) as [(_ & _ & H)|([H|H] & _)];
      [exact H | congruence | contradiction].
  - intros Hor.
    destruct (user_reparse_outcome r kwargs) as [(He & Hu & _)|(_ & H)];
      [|exact H].
    destruct Hor as [Hor|Hor]; [congruence | contradiction].
  - intros r' H. exact (user_reparse_fields r r' kwargs H).
Qed.

Lemma user_reparse_witness :
  let r := ConfluenceUser.defaults in
  Py.truthy (Py.of_opt_str (ConfluenceUser.email r)) = false
  /\ ConfluenceUser.username r = None
  /\ ConfluenceUser.from_api_response (M := exact)
       (VDict (ConfluenceUser.to_simplified_dict r)) [] = Raise TypeError.
Proof.
  cbv zeta. split; [reflexivity | split; [reflexivity|]].
  exact (proj1 (@user_reparse exact ConfluenceUser.defaults [])
           eq_refl eq_refl).
Defined.
